(** * Jira Weekly Filter Report: a shallow embedding of [jira_report.py]

    The script reads its settings from the process environment, resolves a
    saved Jira filter, searches the issues it selects, renders them as an HTML
    page and mails the page.  This file embeds the settings, the fetch step,
    the renderer, the mail step and the run that chains them, and proves the
    properties the specification states of them.

    Python values are modelled as they reach the script: a [str] is a sequence
    of Unicode code points, the decoded JSON of a response is a tree of
    [json] values, a raised exception is an explicit [Raise] result, and the
    HTTP traffic of the fetch step is a log of the requests issued.  The mail
    server and the standard output are seen from the script: each call on the
    session, and each line printed, returns or raises. *)

From Stdlib Require Import Ascii String DecimalString.
From Stdlib Require Import List NArith ZArith QArith Bool Lia.
Import ListNotations.

Set Warnings "-register-all".

Close Scope Q_scope.
Local Open Scope list_scope.

(* ================================================================= *)
(** ** Python strings *)

(** A Python [str] is a sequence of code points. *)
Definition pystr : Type := list N.

(** The double quote, the line feed and the two characters of the page
    template that lie outside ASCII. *)
Definition dquote : N := 34.
Definition newline : N := 10.
Definition middle_dot : N := 183.      (* U+00B7 *)
Definition clipboard : N := 128203.    (* U+1F4CB *)

(** [tpl] reads a literal of the source.  The source's literals are full of
    double quotes; in the literals of this file a backquote stands for one
    (no literal of the source has a backquote of its own). *)
Definition tpl_char (a : ascii) : N :=
  let n := N_of_ascii a in if N.eqb n 96 then dquote else n.

Definition tpl (s : string) : pystr := map tpl_char (list_ascii_of_string s).

(** A literal followed by a line feed. *)
Definition ln (s : string) : pystr := tpl s ++ [newline].

Definition pystr_eqb (a b : pystr) : bool :=
  if list_eq_dec N.eq_dec a b then true else false.

(** [starts_with p s]: [p] is a prefix of [s]. *)
Fixpoint starts_with (p s : pystr) : bool :=
  match p, s with
  | [], _ => true
  | _ :: _, [] => false
  | x :: p', y :: s' => N.eqb x y && starts_with p' s'
  end.

(** [s.endswith(p)]. *)
Definition ends_with (p s : pystr) : bool := starts_with (rev p) (rev s).

(** [occurrences p s]: the number of positions of [s] at which [p] occurs
    (overlapping occurrences counted). *)
Fixpoint occurrences (p s : pystr) : nat :=
  match s with
  | [] => if starts_with p [] then 1 else 0
  | _ :: s' => (if starts_with p s then 1 else 0) + occurrences p s'
  end.

(** [p in s] of Python. *)
Definition contains (p s : pystr) : bool := negb (Nat.eqb (occurrences p s) 0).

(** [agree p t]: [p] and [t] coincide as far as both go. *)
Fixpoint agree (p t : pystr) : bool :=
  match p, t with
  | x :: p', y :: t' => N.eqb x y && agree p' t'
  | _, _ => true
  end.

(** [local p t]: an occurrence of [p] that starts inside [t] ends inside
    [t], whatever follows [t]. *)
Fixpoint local (p t : pystr) : bool :=
  match t with
  | [] => true
  | _ :: t' => (starts_with p t || negb (agree p t)) && local p t'
  end.

(** [dies q t]: no proper or improper non-empty suffix of [q] agrees with
    [t]; [kills p t]: an occurrence of [p] begun before [t] cannot run
    into [t]. *)
Fixpoint dies (q t : pystr) : bool :=
  match q with
  | [] => true
  | _ :: q' => negb (agree q t) && dies q' t
  end.

Definition kills (p t : pystr) : bool :=
  match p with
  | [] => false
  | _ :: p' => dies p' t
  end.

(** [silent p t]: a template piece that is [local] and holds no occurrence
    of [p]. *)
Definition silent (p t : pystr) : bool :=
  local p t && Nat.eqb (occurrences p t) 0.

(** [s.split(sep)] for a separator of one character: the segments between
    the separators, empty ones included, at least one segment. *)
Fixpoint split (sep : N) (s : pystr) : list pystr :=
  match s with
  | [] => [[]]
  | c :: s' =>
      if N.eqb c sep then [] :: split sep s'
      else match split sep s' with
           | [] => [[c]]
           | seg :: segs => (c :: seg) :: segs
           end
  end.

(** [sep.join(segs)]. *)
Fixpoint join (sep : pystr) (segs : list pystr) : pystr :=
  match segs with
  | [] => []
  | [seg] => seg
  | seg :: segs' => seg ++ sep ++ join sep segs'
  end.

(** [s[:n]]. *)
Definition slice_to {A} (n : nat) (s : list A) : list A := firstn n s.

(* ================================================================= *)
(** ** Python values and exceptions *)

(** What [response.json()] can return.  A [dict] is kept as the list of its
    items; a key is looked up from the front.  A float is kept as the
    rational it denotes (the renderer only tests it for zero). *)
Inductive json : Type :=
  | JNull
  | JBool (b : bool)
  | JInt (z : Z)
  | JFloat (q : Q)
  | JStr (s : pystr)
  | JList (l : list json)
  | JDict (d : list (pystr * json)).

(** The exceptions the script can meet. *)
Inductive exn : Type :=
  | KeyError
  | TypeError
  | AttributeError
  | HTTPError
  | JSONDecodeError
  | ConnectionError.

Inductive result (A : Type) : Type :=
  | Ok (a : A)
  | Raise (e : exn).

Arguments Ok {A} a.
Arguments Raise {A} e.

Definition bind {A B} (c : result A) (k : A -> result B) : result B :=
  match c with
  | Ok a => k a
  | Raise e => Raise e
  end.

Declare Scope py_scope.
Delimit Scope py_scope with py.
Notation "x <- c ;; k" := (bind c (fun x => k))
  (at level 61, c at next level, right associativity) : py_scope.

Local Open Scope py_scope.

Fixpoint lookup {V} (k : pystr) (d : list (pystr * V)) : option V :=
  match d with
  | [] => None
  | (k', v) :: d' => if pystr_eqb k k' then Some v else lookup k d'
  end.

(** [d.get(k, default)] on a dict. *)
Definition dict_get {V} (d : list (pystr * V)) (k : pystr) (default : V) : V :=
  match lookup k d with
  | Some v => v
  | None => default
  end.

(** [o.get(k, default)]: only a dict has the method. *)
Definition py_get (o : json) (k : pystr) (default : json) : result json :=
  match o with
  | JDict d => Ok (dict_get d k default)
  | _ => Raise AttributeError
  end.

(** [o[k]] for a string [k]. *)
Definition py_item (o : json) (k : pystr) : result json :=
  match o with
  | JDict d => match lookup k d with Some v => Ok v | None => Raise KeyError end
  | _ => Raise TypeError
  end.

(** [o[:n]]: strings and lists are sliced, nothing else can be (None, a
    number or a Boolean is not subscriptable; a dict raises as well, a
    TypeError up to Python 3.11). *)
Definition py_slice_to (n : nat) (o : json) : result json :=
  match o with
  | JStr s => Ok (JStr (slice_to n s))
  | JList l => Ok (JList (slice_to n l))
  | _ => Raise TypeError
  end.

(** Truth value of an object. *)
Definition truthy (o : json) : bool :=
  match o with
  | JNull => false
  | JBool b => b
  | JInt z => negb (Z.eqb z 0)
  | JFloat q => negb (Z.eqb (Qnum q) 0)
  | JStr s => match s with [] => false | _ => true end
  | JList l => match l with [] => false | _ => true end
  | JDict d => match d with [] => false | _ => true end
  end.

(** [a or b]. *)
Definition py_or (a b : json) : json := if truthy a then a else b.

(** Lists and dicts cannot be used as dictionary keys. *)
Definition hashable (o : json) : bool :=
  match o with
  | JList _ | JDict _ => false
  | _ => true
  end.

(** [str(z)] for an [int]. *)
Definition str_of_int (z : Z) : pystr :=
  map N_of_ascii (list_ascii_of_string (NilZero.string_of_int (Z.to_int z))).

(* ================================================================= *)
(** ** Configuration *)

(** [os.environ]. *)
Definition environ : Type := list (pystr * pystr).

(** [os.environ[name]]. *)
Definition getenv (e : environ) (name : string) : result pystr :=
  match lookup (tpl name) e with
  | Some v => Ok v
  | None => Raise KeyError
  end.

(** The module-level settings of the script. *)
Record config : Type := {
  JIRA_SITE : pystr;
  JIRA_EMAIL : pystr;
  JIRA_API_TOKEN : pystr;
  JIRA_FILTER_ID : pystr;
  SENDER_EMAIL : pystr;
  SENDER_PASSWORD : pystr;
  RECIPIENT_EMAILS : list pystr
}.

Definition comma : N := 44.

(** The assignments at the head of the module, in their order. *)
Definition load_config (e : environ) : result config :=
  site <- getenv e "JIRA_SITE" ;;
  email <- getenv e "JIRA_EMAIL" ;;
  token <- getenv e "JIRA_API_TOKEN" ;;
  filter_id <- getenv e "JIRA_FILTER_ID" ;;
  sender <- getenv e "SENDER_EMAIL" ;;
  password <- getenv e "SENDER_PASSWORD" ;;
  recipients <- getenv e "RECIPIENT_EMAILS" ;;
  Ok {| JIRA_SITE := site;
        JIRA_EMAIL := email;
        JIRA_API_TOKEN := token;
        JIRA_FILTER_ID := filter_id;
        SENDER_EMAIL := sender;
        SENDER_PASSWORD := password;
        RECIPIENT_EMAILS := split comma recipients |}.

(** The variables the module reads, in the order it reads them. *)
Definition required_settings : list string :=
  [ "JIRA_SITE"; "JIRA_EMAIL"; "JIRA_API_TOKEN"; "JIRA_FILTER_ID";
    "SENDER_EMAIL"; "SENDER_PASSWORD"; "RECIPIENT_EMAILS" ]%string.

(* ================================================================= *)
(** ** The fetch step *)

(** A GET request as [requests.get(url, auth=..., params=...)] issues it. *)
Record request : Type := {
  req_url : pystr;
  req_auth : pystr * pystr;
  req_params : list (pystr * json)
}.

(** What the script looks at in a response: the status code, and the body
    decoded as JSON ([None] when the body is not JSON). *)
Record response : Type := {
  status_code : Z;
  body : option json
}.

(** The remote service: the response to each request, [None] when no
    response arrives (connection refused, timeout, ...). *)
Definition service : Type := request -> option response.

(** Code that talks to the service: it extends the log of the requests
    issued so far and returns a value or raises. *)
Definition io (A : Type) : Type := list request -> result A * list request.

Definition io_ret {A} (a : A) : io A := fun log => (Ok a, log).

Definition io_bind {A B} (c : io A) (k : A -> io B) : io B :=
  fun log =>
    match c log with
    | (Ok a, log') => k a log'
    | (Raise e, log') => (Raise e, log')
    end.

Definition io_lift {A} (c : result A) : io A := fun log => (c, log).

Declare Scope io_scope.
Delimit Scope io_scope with io.
Notation "x <-- c ;; k" := (io_bind c (fun x => k))
  (at level 61, c at next level, right associativity) : io_scope.

(** [requests.get]. *)
Definition requests_get (svc : service) (url : pystr) (auth : pystr * pystr)
    (params : list (pystr * json)) : io response :=
  fun log =>
    let r := {| req_url := url; req_auth := auth; req_params := params |} in
    (match svc r with
     | Some resp => Ok resp
     | None => Raise ConnectionError
     end, log ++ [r]).

(** [response.raise_for_status()] of the requests library: an [HTTPError]
    for a status from 400 to 599, nothing otherwise. *)
Definition raise_for_status (r : response) : result unit :=
  if (400 <=? status_code r)%Z && (status_code r <? 600)%Z
  then Raise HTTPError
  else Ok tt.

(** [response.json()]. *)
Definition response_json (r : response) : result json :=
  match body r with
  | Some j => Ok j
  | None => Raise JSONDecodeError
  end.

(** The values of [url], [auth], [search_url] and [params]. *)
Definition filter_url (cfg : config) : pystr :=
  JIRA_SITE cfg ++ tpl "/rest/api/3/filter/" ++ JIRA_FILTER_ID cfg.

Definition basic_auth (cfg : config) : pystr * pystr :=
  (JIRA_EMAIL cfg, JIRA_API_TOKEN cfg).

Definition search_url (cfg : config) : pystr :=
  JIRA_SITE cfg ++ tpl "/rest/api/3/search".

Definition search_params (jql : json) : list (pystr * json) :=
  [ (tpl "jql", jql);
    (tpl "maxResults", JInt 100);
    (tpl "fields", JStr (tpl "summary,status,assignee,priority,updated,issuetype")) ].

Definition fetch_jira_issues (cfg : config) (svc : service)
  : io (json * json * json) :=
  (let url := filter_url cfg in
   let auth := basic_auth cfg in
   filter_response <-- requests_get svc url auth [] ;;
   _ <-- io_lift (raise_for_status filter_response) ;;
   jql <-- io_lift (j <- response_json filter_response ;;
                    py_get j (tpl "jql") (JStr [])) ;;
   filter_name <-- io_lift (j <- response_json filter_response ;;
                            py_get j (tpl "name") (JStr (tpl "Jira Filter"))) ;;
   let search_url := search_url cfg in
   let params := search_params jql in
   issues_response <-- requests_get svc search_url auth params ;;
   _ <-- io_lift (raise_for_status issues_response) ;;
   data <-- io_lift (response_json issues_response) ;;
   issues <-- io_lift (py_get data (tpl "issues") (JList [])) ;;
   total <-- io_lift (py_get data (tpl "total") (JInt 0)) ;;
   io_ret (issues, filter_name, total))%io.

(** The two requests of a run, as the log records them. *)
Definition filter_request (cfg : config) : request :=
  {| req_url := filter_url cfg; req_auth := basic_auth cfg; req_params := [] |}.

Definition search_request (cfg : config) (jql : json) : request :=
  {| req_url := search_url cfg; req_auth := basic_auth cfg;
     req_params := search_params jql |}.

(* ================================================================= *)
(** ** The clock *)

(** What [datetime.now()] returns. *)
Record datetime : Type := {
  year : Z;
  month : Z;          (* 1 .. 12 *)
  day : Z;            (* 1 .. 31 *)
  hour : Z;
  minute : Z;
  second : Z;
  microsecond : Z
}.

Definition month_names : list string :=
  [ "January"; "February"; "March"; "April"; "May"; "June"; "July";
    "August"; "September"; "October"; "November"; "December" ]%string.

(** [%B]: the full name of the month, in the C locale the script runs
    in. *)
Definition month_name (m : Z) : pystr :=
  tpl (nth (Z.to_nat (m - 1)) month_names ""%string).

(** [%d]: the day of the month on two digits. *)
Definition two_digits (d : Z) : pystr :=
  if (d <? 10)%Z then tpl "0" ++ str_of_int d else str_of_int d.

(** [t.strftime("%B %d, %Y")]; [%Y] is the year in decimal, which is what
    every year from 1000 on gives. *)
Definition strftime_B_d_Y (t : datetime) : pystr :=
  month_name (month t) ++ tpl " " ++ two_digits (day t) ++ tpl ", "
  ++ str_of_int (year t).

(* ================================================================= *)
(** ** The renderer *)

(** The literal of [status_colors]. *)
Definition status_colors : list (pystr * pystr) :=
  [ (tpl "To Do", tpl "#6b7280"); (tpl "In Progress", tpl "#2563eb");
    (tpl "Done", tpl "#16a34a"); (tpl "Blocked", tpl "#dc2626");
    (tpl "In Review", tpl "#d97706") ].

Definition default_color : pystr := tpl "#6b7280".

(** [status_colors.get(status, "#6b7280")]: the key must be hashable; a key
    that is not a string equals none of the table's keys. *)
Definition status_color_of (status : json) : result pystr :=
  if hashable status then
    Ok (match status with
        | JStr s => match lookup s status_colors with
                    | Some c => c
                    | None => default_color
                    end
        | _ => default_color
        end)
  else Raise TypeError.

(** The text shown when the filter selects nothing. *)
Definition no_issues_text : pystr := tpl "No issues found in this filter.".

Definition no_issues_notice : pystr :=
  tpl "<p style='color:#6b7280; text-align:center; margin-top:20px;'>"
  ++ no_issues_text ++ tpl "</p>".

(** The local variables of one turn of the loop over the issues. *)
Record row : Type := {
  key : json;
  summary : json;
  status : json;
  assignee : json;
  priority : json;
  updated : json;
  issue_url : pystr;
  status_color : pystr
}.

Section Renderer.

(** [str()] of a float, a list or a dict: its text is not modelled. *)
Variable py_repr : json -> pystr.

(** What an f-string puts for [{v}]: [str(v)]. *)
Definition fmt (v : json) : pystr :=
  match v with
  | JStr s => s
  | JInt z => str_of_int z
  | JBool true => tpl "True"
  | JBool false => tpl "False"
  | JNull => tpl "None"
  | _ => py_repr v
  end.

(** [fields.get("status", {}).get("name", "N/A")]. *)
Definition status_of (fields : json) : result json :=
  s <- py_get fields (tpl "status") (JDict []) ;;
  py_get s (tpl "name") (JStr (tpl "N/A")).

(** [(fields.get("assignee") or {}).get("displayName", "Unassigned")]. *)
Definition assignee_of (fields : json) : result json :=
  a <- py_get fields (tpl "assignee") JNull ;;
  py_get (py_or a (JDict [])) (tpl "displayName") (JStr (tpl "Unassigned")).

(** [(fields.get("priority") or {}).get("name", "N/A")]. *)
Definition priority_of (fields : json) : result json :=
  p <- py_get fields (tpl "priority") JNull ;;
  py_get (py_or p (JDict [])) (tpl "name") (JStr (tpl "N/A")).

(** [fields.get("updated", "")[:10]]. *)
Definition updated_of (fields : json) : result json :=
  u <- py_get fields (tpl "updated") (JStr []) ;;
  py_slice_to 10 u.

(** The assignments of the loop body, in their order. *)
Definition issue_row (cfg : config) (issue : json) : result row :=
  key <- py_item issue (tpl "key") ;;
  fields <- py_item issue (tpl "fields") ;;
  summary <- py_get fields (tpl "summary") (JStr (tpl "N/A")) ;;
  status <- status_of fields ;;
  assignee <- assignee_of fields ;;
  priority <- priority_of fields ;;
  updated <- updated_of fields ;;
  let issue_url := JIRA_SITE cfg ++ tpl "/browse/" ++ fmt key in
  status_color <- status_color_of status ;;
  Ok {| key := key; summary := summary; status := status;
        assignee := assignee; priority := priority; updated := updated;
        issue_url := issue_url; status_color := status_color |}.

(** The f-string appended to [rows]. *)
Definition row_text (r : row) : pystr :=
  [newline] ++
  ln "        <tr>" ++
  ln "            <td style=`padding:10px 12px; border-bottom:1px solid #e5e7eb;`>" ++
  tpl "                <a href=`" ++ issue_url r ++ tpl "` style=`color:#2563eb; font-weight:600; text-decoration:none;`>" ++ fmt (key r) ++ ln "</a>" ++
  ln "            </td>" ++
  tpl "            <td style=`padding:10px 12px; border-bottom:1px solid #e5e7eb;`>" ++ fmt (summary r) ++ ln "</td>" ++
  ln "            <td style=`padding:10px 12px; border-bottom:1px solid #e5e7eb;`>" ++
  tpl "                <span style=`background:" ++ status_color r ++ tpl "; color:#fff; padding:2px 8px; border-radius:12px; font-size:12px;`>" ++ fmt (status r) ++ ln "</span>" ++
  ln "            </td>" ++
  tpl "            <td style=`padding:10px 12px; border-bottom:1px solid #e5e7eb;`>" ++ fmt (assignee r) ++ ln "</td>" ++
  tpl "            <td style=`padding:10px 12px; border-bottom:1px solid #e5e7eb;`>" ++ fmt (priority r) ++ ln "</td>" ++
  tpl "            <td style=`padding:10px 12px; border-bottom:1px solid #e5e7eb;`>" ++ fmt (updated r) ++ ln "</td>" ++
  ln "        </tr>" ++
  tpl "        ".

(** One turn of the loop: the text it appends to [rows]. *)
Definition render_row (cfg : config) (issue : json) : result pystr :=
  r <- issue_row cfg issue ;; Ok (row_text r).

(** [for issue in issues: ... rows += ...], from the value of [rows] so far. *)
Fixpoint render_rows (cfg : config) (issues : list json) (rows : pystr)
  : result pystr :=
  match issues with
  | [] => Ok rows
  | issue :: rest =>
      r <- render_row cfg issue ;;
      render_rows cfg rest (rows ++ r)
  end.

(** The f-string assigned to [html]; [notice] is the value of the
    conditional expression below the table. *)
Definition page (cfg : config) (today : pystr) (filter_name total : json)
    (rows notice : pystr) : pystr :=
  [newline] ++
  ln "    <html><body style=`font-family: Arial, sans-serif; background:#f9fafb; margin:0; padding:20px;`>" ++
  ln "    <div style=`max-width:900px; margin:auto; background:#fff; border-radius:8px; box-shadow:0 2px 8px rgba(0,0,0,0.08); overflow:hidden;`>" ++
  ln "        <div style=`background:#0052cc; padding:24px 32px;`>" ++
  tpl "            <h1 style=`color:#fff; margin:0; font-size:22px;`>" ++ [clipboard] ++ tpl " " ++ fmt filter_name ++ ln "</h1>" ++
  tpl "            <p style=`color:#b3d4ff; margin:6px 0 0;`>" ++ today ++ tpl " &nbsp;" ++ [middle_dot] ++ tpl "&nbsp; " ++ fmt total ++ ln " issue(s) found</p>" ++
  ln "        </div>" ++
  ln "        <div style=`padding:24px 32px;`>" ++
  ln "            <table style=`width:100%; border-collapse:collapse; font-size:14px;`>" ++
  ln "                <thead>" ++
  ln "                    <tr style=`background:#f3f4f6;`>" ++
  ln "                        <th style=`padding:10px 12px; text-align:left; color:#374151;`>Key</th>" ++
  ln "                        <th style=`padding:10px 12px; text-align:left; color:#374151;`>Summary</th>" ++
  ln "                        <th style=`padding:10px 12px; text-align:left; color:#374151;`>Status</th>" ++
  ln "                        <th style=`padding:10px 12px; text-align:left; color:#374151;`>Assignee</th>" ++
  ln "                        <th style=`padding:10px 12px; text-align:left; color:#374151;`>Priority</th>" ++
  ln "                        <th style=`padding:10px 12px; text-align:left; color:#374151;`>Updated</th>" ++
  ln "                    </tr>" ++
  ln "                </thead>" ++
  tpl "                <tbody>" ++ rows ++ ln "</tbody>" ++
  ln "            </table>" ++
  tpl "            " ++ notice ++ [newline] ++
  ln "        </div>" ++
  ln "        <div style=`background:#f3f4f6; padding:16px 32px; font-size:12px; color:#9ca3af; text-align:center;`>" ++
  tpl "            Auto-generated by Jira Weekly Report &nbsp;" ++ [middle_dot] ++ tpl "&nbsp; <a href=`" ++ JIRA_SITE cfg ++ ln "` style=`color:#2563eb;`>Open Jira</a>" ++
  ln "        </div>" ++
  ln "    </div>" ++
  ln "    </body></html>" ++
  tpl "    ".

(** [... if not issues else ""]. *)
Definition notice_for (issues : list json) : pystr :=
  match issues with
  | [] => no_issues_notice
  | _ :: _ => []
  end.

(** [build_html_report(issues, filter_name, total)], run with the settings
    [cfg] and with [now] the reading of the clock. *)
Definition build_html_report (cfg : config) (now : datetime)
    (issues : list json) (filter_name total : json) : result pystr :=
  let today := strftime_B_d_Y now in
  rows <- render_rows cfg issues [] ;;
  Ok (page cfg today filter_name total rows (notice_for issues)).

(** The texts that one issue brings into its row. *)
Definition row_values (r : row) : list pystr :=
  [ fmt (key r); fmt (summary r); fmt (status r);
    fmt (assignee r); fmt (priority r); fmt (updated r) ].

(** How often a text occurs in the values one row interpolates: the site
    address and the key make the link, the key and the other values fill the
    cells. *)
Definition row_count (p site : pystr) (r : row) : nat :=
  occurrences p site + occurrences p (fmt (key r))
  + list_sum (map (occurrences p) (row_values r)).

End Renderer.

(* ================================================================= *)
(** ** The renderer and its caller *)

(** What [(x or {}).get(...)] accepts: a dict, or anything false. *)
Definition optional_dict (o : json) : bool :=
  match o with
  | JDict _ => true
  | _ => negb (truthy o)
  end.

(** The fields the loop body can read without raising: a status that is
    absent or a dict with a hashable name, an assignee and a priority that
    are absent, false or dicts, an updated value that is absent, a string or
    a list. *)
Definition well_formed_fields (f : list (pystr * json)) : bool :=
  match dict_get f (tpl "status") (JDict []) with
  | JDict s => hashable (dict_get s (tpl "name") (JStr (tpl "N/A")))
  | _ => false
  end
  && optional_dict (dict_get f (tpl "assignee") JNull)
  && optional_dict (dict_get f (tpl "priority") JNull)
  && match dict_get f (tpl "updated") (JStr []) with
     | JStr _ | JList _ => true
     | _ => false
     end.

(** An issue the loop body can render: a dict with a key and with fields
    that are a dict of the shape above. *)
Definition well_formed_issue (issue : json) : bool :=
  match issue with
  | JDict d =>
      match lookup (tpl "key") d, lookup (tpl "fields") d with
      | Some _, Some (JDict f) => well_formed_fields f
      | _, _ => false
      end
  | _ => false
  end.

(** What [for issue in issues] goes through: the items of a list, the keys
    of a dict, the characters of a string; nothing else can be iterated. *)
Definition iter_items (issues : json) : result (list json) :=
  match issues with
  | JList l => Ok l
  | JDict d => Ok (map (fun kv => JStr (fst kv)) d)
  | JStr s => Ok (map (fun c => JStr [c]) s)
  | _ => Raise TypeError
  end.

Section RendererCaller.

Variable py_repr : json -> pystr.

(** [build_html_report(issues, filter_name, total)] for whatever object the
    fetch step returned as [issues]; an object that can be iterated is false
    exactly when it has no item. *)
Definition build_html_report_of (cfg : config) (now : datetime)
    (issues filter_name total : json) : result pystr :=
  items <- iter_items issues ;;
  build_html_report py_repr cfg now items filter_name total.

End RendererCaller.

(* ================================================================= *)
(** ** The mail step *)

Definition en_dash : N := 8211.          (* U+2013 *)
Definition hourglass : N := 9203.        (* U+23F3 *)
Definition check_mark : N := 9989.       (* U+2705 *)
Definition e_mail : N := 128231.         (* U+1F4E7 *)

Definition month_abbrs : list string :=
  [ "Jan"; "Feb"; "Mar"; "Apr"; "May"; "Jun"; "Jul";
    "Aug"; "Sep"; "Oct"; "Nov"; "Dec" ]%string.

(** [%b]: the abbreviated name of the month. *)
Definition month_abbr (m : Z) : pystr :=
  tpl (nth (Z.to_nat (m - 1)) month_abbrs ""%string).

(** [t.strftime('%b %d, %Y')]. *)
Definition strftime_b_d_Y (t : datetime) : pystr :=
  month_abbr (month t) ++ tpl " " ++ two_digits (day t) ++ tpl ", "
  ++ str_of_int (year t).

(** [MIMEText(text, subtype)]. *)
Record mime_text : Type := {
  payload : pystr;
  text_subtype : pystr
}.

(** A [MIMEMultipart(subtype)] message: the headers the script sets, in
    their order, and the parts it attaches. *)
Record mime_multipart : Type := {
  multipart_subtype : pystr;
  headers : list (pystr * pystr);
  parts : list mime_text
}.

(** The calls the script makes on the SMTP session: the constructor, the
    four methods, and the [__exit__] of the [with] statement, which quits
    and closes the session. *)
Inductive smtp_call : Type :=
  | SMTP_connect (host : pystr) (port : Z)
  | SMTP_ehlo
  | SMTP_starttls
  | SMTP_login (user password : pystr)
  | SMTP_sendmail (from_addr : pystr) (to_addrs : list pystr) (msg : pystr)
  | SMTP_exit.

(** The mail server, seen from the script: each call returns ([true]) or
    raises ([false]). *)
Definition mail_server : Type := smtp_call -> bool.

(** What a run can raise: an exception of the fetch or render step; the
    UnicodeEncodeError of a [print] whose line the stream cannot encode; what
    the email package raised while the message was built or serialised (a
    UnicodeEncodeError, a HeaderParseError); or whatever a call on the SMTP
    session raised (an exception of smtplib or of the socket under it).  The
    script catches none of them. *)
Inductive error : Type :=
  | PythonError (e : exn)
  | PrintError
  | MessageError
  | SessionError.

Inductive outcome (A : Type) : Type :=
  | Done (a : A)
  | Failed (e : error).

Arguments Done {A} a.
Arguments Failed {A} e.

(** What a run leaves behind: the HTTP requests issued, the calls made on
    the SMTP session, the lines printed. *)
Record world : Type := {
  http_log : list request;
  smtp_log : list smtp_call;
  stdout : list pystr
}.

Definition prog (A : Type) : Type := world -> outcome A * world.

Definition prog_ret {A} (a : A) : prog A := fun w => (Done a, w).

Definition prog_bind {A B} (c : prog A) (k : A -> prog B) : prog B :=
  fun w =>
    match c w with
    | (Done a, w') => k a w'
    | (Failed e, w') => (Failed e, w')
    end.

Declare Scope prog_scope.
Delimit Scope prog_scope with prog.
Notation "x <~ c ;; k" := (prog_bind c (fun x => k))
  (at level 61, c at next level, right associativity) : prog_scope.

(** The standard output, seen from the script: whether the stream can
    encode a line.  Which lines it can depends on its encoding and error
    handler: a UTF-8 stream refuses a lone surrogate, an ASCII one every
    line with a character beyond U+007F. *)
Definition console : Type := pystr -> bool.

(** [print(line)]: the line is encoded as a whole before anything is
    written, so a line that cannot be encoded raises and leaves no output. *)
Definition print (out : console) (line : pystr) : prog unit :=
  fun w =>
    if out line
    then (Done tt, {| http_log := http_log w; smtp_log := smtp_log w;
                      stdout := stdout w ++ [line] |})
    else (Failed PrintError, w).

(** Code of the fetch step, run on the HTTP log of the world. *)
Definition run_io {A} (c : io A) : prog A :=
  fun w =>
    match c (http_log w) with
    | (r, log) =>
        (match r with
         | Ok a => Done a
         | Raise e => Failed (PythonError e)
         end,
         {| http_log := log; smtp_log := smtp_log w; stdout := stdout w |})
    end.

(** Code that only computes or raises. *)
Definition run_result {A} (c : result A) : prog A :=
  fun w => (match c with
            | Ok a => Done a
            | Raise e => Failed (PythonError e)
            end, w).

(** One call on the SMTP session. *)
Definition smtp (srv : mail_server) (c : smtp_call) : prog unit :=
  fun w =>
    (if srv c then Done tt else Failed SessionError,
     {| http_log := http_log w; smtp_log := smtp_log w ++ [c];
        stdout := stdout w |}).

(** [with smtplib.SMTP(host, port) as server: body]: when the constructor
    raises the body is not entered; otherwise [__exit__] is called however
    the body ends, and what it raises replaces the outcome of the body. *)
Definition with_smtp {A} (srv : mail_server) (host : pystr) (port : Z)
    (body : prog A) : prog A :=
  fun w =>
    match smtp srv (SMTP_connect host port) w with
    | (Failed e, w1) => (Failed e, w1)
    | (Done _, w1) =>
        match body w1 with
        | (r, w2) =>
            match smtp srv SMTP_exit w2 with
            | (Failed e, w3) => (Failed e, w3)
            | (Done _, w3) => (r, w3)
            end
        end
    end.

(** The calls of a sequence that are made when each one that raises stops
    the sequence. *)
Fixpoint attempted (srv : mail_server) (calls : list smtp_call)
  : list smtp_call :=
  match calls with
  | [] => []
  | c :: rest => c :: (if srv c then attempted srv rest else [])
  end.

Definition smtp_host : pystr := tpl "smtp.office365.com".
Definition smtp_port : Z := 587.

Section Report.

(** The library functions whose results are not modelled: [str()] of
    floats, lists and dicts; whether [MIMEText] can encode a text in the
    charset it picks (us-ascii, else utf-8; a lone surrogate fits neither);
    and [msg.as_string()], which gives the text of the message or raises (on
    a header that carries a line break followed by a header of its own, for
    one).  The script calls it once in a run: [as_string] stands for the
    result of that call, the boundary it draws between the parts included. *)
Variable py_repr : json -> pystr.
Variable text_encodes : pystr -> bool.
Variable as_string : mime_multipart -> option pystr.

(** [MIMEText(text, subtype)]: the payload is encoded at once. *)
Definition MIMEText (text subtype : pystr) : prog mime_text :=
  fun w =>
    (if text_encodes text
     then Done {| payload := text; text_subtype := subtype |}
     else Failed MessageError, w).

(** [msg.as_string()]. *)
Definition msg_as_string (msg : mime_multipart) : prog pystr :=
  fun w => (match as_string msg with
            | Some text => Done text
            | None => Failed MessageError
            end, w).

(** The message [send_email] builds around a part. *)
Definition message_of (cfg : config) (now : datetime) (part : mime_text)
  : mime_multipart :=
  {| multipart_subtype := tpl "alternative";
     headers :=
       [ (tpl "Subject",
          tpl "Weekly Jira Report " ++ [en_dash] ++ tpl " "
          ++ strftime_b_d_Y now);
         (tpl "From", SENDER_EMAIL cfg);
         (tpl "To", join (tpl ", ") (RECIPIENT_EMAILS cfg)) ];
     parts := [ part ] |}.

(** The message of a page. *)
Definition email_message (cfg : config) (now : datetime) (html_body : pystr)
  : mime_multipart :=
  message_of cfg now {| payload := html_body; text_subtype := tpl "html" |}.

(** [send_email(html_body)], with [now] the reading of the clock.  The
    argument [msg.as_string()] of [sendmail] is evaluated inside the [with]
    statement, after the login and before the call. *)
Definition send_email (cfg : config) (out : console) (srv : mail_server)
    (now : datetime) (html_body : pystr) : prog unit :=
  (part <~ MIMEText html_body (tpl "html") ;;
   let msg := message_of cfg now part in
   _ <~ with_smtp srv smtp_host smtp_port
          (_ <~ smtp srv SMTP_ehlo ;;
           _ <~ smtp srv SMTP_starttls ;;
           _ <~ smtp srv (SMTP_login (SENDER_EMAIL cfg) (SENDER_PASSWORD cfg)) ;;
           text <~ msg_as_string msg ;;
           smtp srv (SMTP_sendmail (SENDER_EMAIL cfg) (RECIPIENT_EMAILS cfg)
                                   text)) ;;
   print out ([check_mark] ++ tpl " Report sent successfully to: "
              ++ join (tpl ", ") (RECIPIENT_EMAILS cfg)))%prog.

(** [run_report()]: [now_render] and [now_send] are the readings of the
    clock in the render and in the mail step. *)
Definition run_report (cfg : config) (out : console) (svc : service)
    (srv : mail_server) (now_render now_send : datetime) : prog unit :=
  (_ <~ print out ([hourglass] ++ tpl " Fetching Jira issues...") ;;
   fetched <~ run_io (fetch_jira_issues cfg svc) ;;
   let '(issues, filter_name, total) := fetched in
   _ <~ print out ([check_mark] ++ tpl " Found " ++ fmt py_repr total
                   ++ tpl " issues in filter: " ++ fmt py_repr filter_name) ;;
   html <~ run_result
             (build_html_report_of py_repr cfg now_render
                issues filter_name total) ;;
   _ <~ print out ([e_mail] ++ tpl " Sending email...") ;;
   send_email cfg out srv now_send html)%prog.

(** The lines a run prints. *)
Definition fetching_line : pystr :=
  [hourglass] ++ tpl " Fetching Jira issues...".

Definition found_line (filter_name total : json) : pystr :=
  [check_mark] ++ tpl " Found " ++ fmt py_repr total
  ++ tpl " issues in filter: " ++ fmt py_repr filter_name.

Definition sending_line : pystr := [e_mail] ++ tpl " Sending email...".

Definition sent_line (cfg : config) : pystr :=
  [check_mark] ++ tpl " Report sent successfully to: "
  ++ join (tpl ", ") (RECIPIENT_EMAILS cfg).

(** The calls of the body of the [with] statement: the message is handed
    over only when it could be serialised. *)
Definition session_calls (cfg : config) (now : datetime) (html_body : pystr)
  : list smtp_call :=
  [ SMTP_ehlo;
    SMTP_starttls;
    SMTP_login (SENDER_EMAIL cfg) (SENDER_PASSWORD cfg) ]
  ++ match as_string (email_message cfg now html_body) with
     | Some text =>
         [ SMTP_sendmail (SENDER_EMAIL cfg) (RECIPIENT_EMAILS cfg) text ]
     | None => []
     end.

(** The calls of a whole mail step: none when the page cannot be encoded,
    the connection alone when it is refused, and otherwise the connection,
    the calls of the body up to the first that raises, and the exit. *)
Definition session_trace (cfg : config) (srv : mail_server) (now : datetime)
    (html_body : pystr) : list smtp_call :=
  if text_encodes html_body
  then if srv (SMTP_connect smtp_host smtp_port)
       then SMTP_connect smtp_host smtp_port
            :: attempted srv (session_calls cfg now html_body) ++ [SMTP_exit]
       else [SMTP_connect smtp_host smtp_port]
  else [].

(** The server accepts every call of the session. *)
Definition session_accepted (cfg : config) (srv : mail_server)
    (now : datetime) (html_body : pystr) : bool :=
  srv (SMTP_connect smtp_host smtp_port)
  && forallb srv (session_calls cfg now html_body)
  && srv SMTP_exit.

(** The message of the page can be built and serialised. *)
Definition message_ready (cfg : config) (now : datetime) (html_body : pystr)
  : bool :=
  text_encodes html_body
  && match as_string (email_message cfg now html_body) with
     | Some _ => true
     | None => false
     end.

End Report.

(* ================================================================= *)
(** ** Sample data *)

Definition sample_environ : environ :=
  [ (tpl "JIRA_SITE", tpl "https://acme.atlassian.net");
    (tpl "JIRA_EMAIL", tpl "bot@acme.com");
    (tpl "JIRA_API_TOKEN", tpl "secret");
    (tpl "JIRA_FILTER_ID", tpl "10042");
    (tpl "SENDER_EMAIL", tpl "reports@acme.com");
    (tpl "SENDER_PASSWORD", tpl "hunter2");
    (tpl "RECIPIENT_EMAILS", tpl "a@x.com,b@y.com") ].

Definition sample_config : config :=
  {| JIRA_SITE := tpl "https://acme.atlassian.net";
     JIRA_EMAIL := tpl "bot@acme.com";
     JIRA_API_TOKEN := tpl "secret";
     JIRA_FILTER_ID := tpl "10042";
     SENDER_EMAIL := tpl "reports@acme.com";
     SENDER_PASSWORD := tpl "hunter2";
     RECIPIENT_EMAILS := [tpl "a@x.com"; tpl "b@y.com"] |}.

(** A service whose filter lookup answers [lookup_status] with the body
    [lookup_body], and whose search answers 200 with [search_body]. *)
Definition sample_service (lookup_status : Z) (lookup_body search_body : json)
  : service :=
  fun r =>
    if pystr_eqb (req_url r) (filter_url sample_config)
    then Some {| status_code := lookup_status; body := Some lookup_body |}
    else Some {| status_code := 200; body := Some search_body |}.

Definition sample_filter : json :=
  JDict [ (tpl "jql", JStr (tpl "project = OPS")); (tpl "name", JStr (tpl "Ops")) ].

Definition sample_search : json :=
  JDict [ (tpl "issues", JList []); (tpl "total", JInt 0) ].

(** [str()] of floats, lists and dicts for the samples, none of which
    prints one. *)
Definition sample_repr : json -> pystr := fun _ => [].

Definition sample_clock : datetime :=
  {| year := 2024; month := 3; day := 15;
     hour := 10; minute := 22; second := 0; microsecond := 0 |}.

(** The same clock a day later. *)
Definition sample_clock_next : datetime :=
  {| year := 2024; month := 3; day := 16;
     hour := 10; minute := 22; second := 0; microsecond := 0 |}.

(** An issue as the search returns it, and one with no assignee, no
    priority and a status outside the colour table. *)
Definition sample_issue : json :=
  JDict [ (tpl "key", JStr (tpl "OPS-7"));
          (tpl "fields", JDict
             [ (tpl "summary", JStr (tpl "Rotate the signing keys"));
               (tpl "status", JDict [ (tpl "name", JStr (tpl "In Progress")) ]);
               (tpl "assignee", JDict [ (tpl "displayName", JStr (tpl "Dana")) ]);
               (tpl "priority", JDict [ (tpl "name", JStr (tpl "High")) ]);
               (tpl "updated", JStr (tpl "2024-03-15T10:22:00.000Z")) ]) ].

Definition bare_issue : json :=
  JDict [ (tpl "key", JStr (tpl "OPS-8"));
          (tpl "fields", JDict
             [ (tpl "summary", JStr (tpl "Renew the certificate"));
               (tpl "status", JDict [ (tpl "name", JStr (tpl "Waiting")) ]);
               (tpl "assignee", JNull);
               (tpl "updated", JStr (tpl "2024-03")) ]) ].

(** An issue whose summary happens to read like the notice of the empty
    report. *)
Definition echo_issue : json :=
  JDict [ (tpl "key", JStr (tpl "OPS-9"));
          (tpl "fields", JDict
             [ (tpl "summary", JStr (tpl "No issues found in this filter.")) ]) ].

(** Issues of unusual shapes: fields that are null, empty, or hold a null
    status or a null summary. *)
Definition issue_with_fields (fields : json) : json :=
  JDict [ (tpl "key", JStr (tpl "OPS-1")); (tpl "fields", fields) ].

Definition null_status_fields : list (pystr * json) :=
  [ (tpl "status", JNull) ].

Definition null_summary_fields : list (pystr * json) :=
  [ (tpl "summary", JNull) ].

Definition null_summary_row : row :=
  {| key := JStr (tpl "OPS-1");
     summary := JNull;
     status := JStr (tpl "N/A");
     assignee := JStr (tpl "Unassigned");
     priority := JStr (tpl "N/A");
     updated := JStr [];
     issue_url := tpl "https://acme.atlassian.net/browse/OPS-1";
     status_color := tpl "#6b7280" |}.

Definition sample_row : row :=
  {| key := JStr (tpl "OPS-7");
     summary := JStr (tpl "Rotate the signing keys");
     status := JStr (tpl "In Progress");
     assignee := JStr (tpl "Dana");
     priority := JStr (tpl "High");
     updated := JStr (tpl "2024-03-15");
     issue_url := tpl "https://acme.atlassian.net/browse/OPS-7";
     status_color := tpl "#2563eb" |}.

Definition bare_row : row :=
  {| key := JStr (tpl "OPS-8");
     summary := JStr (tpl "Renew the certificate");
     status := JStr (tpl "Waiting");
     assignee := JStr (tpl "Unassigned");
     priority := JStr (tpl "N/A");
     updated := JStr (tpl "2024-03");
     issue_url := tpl "https://acme.atlassian.net/browse/OPS-8";
     status_color := tpl "#6b7280" |}.

(** An issue whose summary is the opening tag of a row. *)
Definition tag_issue : json :=
  JDict [ (tpl "key", JStr (tpl "OPS-10"));
          (tpl "fields", JDict [ (tpl "summary", JStr (tpl "<tr>")) ]) ].

(** The code points of the surrogates, which UTF-8 cannot encode. *)
Definition surrogate (c : N) : bool := ((55296 <=? c) && (c <=? 57343))%N.

(** A standard output in UTF-8 with strict error handling, and a
    [MIMEText] that encodes in UTF-8: both refuse a text with a surrogate. *)
Definition utf8_console : console :=
  fun line => negb (existsb surrogate line).

Definition utf8_encodes : pystr -> bool :=
  fun text => negb (existsb surrogate text).

(** A serialisation for the samples: the parts, one after the other; it
    refuses a message with a line break in a header. *)
Definition sample_as_string : mime_multipart -> option pystr :=
  fun m =>
    if existsb (fun h => existsb (N.eqb newline) (snd h)) (headers m)
    then None
    else Some (concat (map payload (parts m))).

(** A filter whose name holds a lone surrogate, and settings whose second
    recipient carries a line break and a header. *)
Definition surrogate_filter : json :=
  JDict [ (tpl "jql", JStr (tpl "project = OPS"));
          (tpl "name", JStr (tpl "Ops " ++ [55296%N])) ].

Definition sample_config_broken_recipient : config :=
  {| JIRA_SITE := tpl "https://acme.atlassian.net";
     JIRA_EMAIL := tpl "bot@acme.com";
     JIRA_API_TOKEN := tpl "secret";
     JIRA_FILTER_ID := tpl "10042";
     SENDER_EMAIL := tpl "reports@acme.com";
     SENDER_PASSWORD := tpl "hunter2";
     RECIPIENT_EMAILS := [tpl "a@x.com"; tpl "b@y.com" ++ [newline] ++ tpl "Bcc: c@z.com"] |}.

(** A mail server that accepts every call, one that rejects the login, and
    the world before a run. *)

Definition accepting_server : mail_server := fun _ => true.

Definition login_rejecting_server : mail_server :=
  fun c => match c with
           | SMTP_login _ _ => false
           | _ => true
           end.

Definition fresh_world : world :=
  {| http_log := []; smtp_log := []; stdout := [] |}.

(** The report of the empty filter named Ops. *)
Definition empty_report : pystr :=
  page sample_repr sample_config (tpl "March 15, 2024")
    (JStr (tpl "Ops")) (JInt 0) [] no_issues_notice.

(* ================================================================= *)
(** ** Splitting the recipient list *)

Lemma split_not_nil (sep : N) (s : pystr) : split sep s <> [].
Proof.
  destruct s as [|c s]; simpl; [discriminate|].
  destruct (N.eqb c sep); [discriminate|].
  destruct (split sep s); discriminate.
Qed.

Lemma join_split (sep : N) (s : pystr) : join [sep] (split sep s) = s.
Proof.
  induction s as [|c s IH]; simpl; [reflexivity|].
  destruct (N.eqb_spec c sep) as [->|Hne].
  - pose proof (split_not_nil sep s) as Hnn.
    destruct (split sep s) as [|seg segs]; [contradiction|].
    simpl in *. now rewrite IH.
  - pose proof (split_not_nil sep s) as Hnn.
    destruct (split sep s) as [|seg segs]; [contradiction|].
    destruct segs as [|seg' segs]; simpl in *; now rewrite <- IH.
Qed.

Lemma length_split (sep : N) (s : pystr) :
  length (split sep s) = S (count_occ N.eq_dec s sep).
Proof.
  induction s as [|c s IH]; simpl; [reflexivity|].
  destruct (N.eqb_spec c sep) as [->|Hne].
  - destruct (N.eq_dec sep sep) as [_|n]; [|contradiction].
    simpl. now rewrite IH.
  - destruct (N.eq_dec c sep) as [e|_]; [contradiction|].
    pose proof (split_not_nil sep s) as Hnn.
    destruct (split sep s) as [|seg segs]; [contradiction|].
    simpl in *. exact IH.
Qed.

Lemma split_segments_free (sep : N) (s : pystr) :
  Forall (fun seg => ~ In sep seg) (split sep s).
Proof.
  induction s as [|c s IH]; simpl.
  - constructor; [intros []|constructor].
  - destruct (N.eqb_spec c sep) as [->|Hne].
    + constructor; [intros []|exact IH].
    + destruct (split sep s) as [|seg segs].
      * constructor; [|constructor]. intros [H|[]]. now apply Hne.
      * inversion IH as [|? ? Hseg Hsegs]; subst.
        constructor; [|exact Hsegs].
        intros [H|H]; [now apply Hne|now apply Hseg].
Qed.

Lemma bind_ok {A B} (c : result A) (k : A -> result B) (b : B) :
  bind c k = Ok b -> exists a, c = Ok a /\ k a = Ok b.
Proof.
  destruct c as [a|e]; simpl; intros H; [eauto|discriminate].
Qed.

(** C8: the recipient list is the value of RECIPIENT_EMAILS split on the
    comma.  Nothing is trimmed and no segment is dropped: joining the
    recipients with commas gives the value back, there is one recipient more
    than there are commas, and no recipient holds a comma.  The value
    a@x.com,b@y.com gives the two recipients a@x.com and b@y.com. *)
Theorem recipients_split_on_comma (e : environ) (cfg : config) :
  load_config e = Ok cfg ->
  exists v,
    getenv e "RECIPIENT_EMAILS" = Ok v
    /\ RECIPIENT_EMAILS cfg = split comma v
    /\ join [comma] (RECIPIENT_EMAILS cfg) = v
    /\ length (RECIPIENT_EMAILS cfg) = S (count_occ N.eq_dec v comma)
    /\ Forall (fun r => ~ In comma r) (RECIPIENT_EMAILS cfg)
    /\ split comma (tpl "a@x.com,b@y.com") = [tpl "a@x.com"; tpl "b@y.com"].
Proof.
  unfold load_config. intros H.
  repeat (apply bind_ok in H; destruct H as [? [? H]]).
  match goal with Hv : getenv e "RECIPIENT_EMAILS" = Ok ?v |- _ => exists v end.
  injection H as <-. simpl.
  split; [assumption|]. split; [reflexivity|].
  split; [apply join_split|]. split; [apply length_split|].
  split; [apply split_segments_free|reflexivity].
Qed.

Lemma recipients_split_on_comma_witness :
  load_config sample_environ = Ok sample_config
  /\ exists v,
    getenv sample_environ "RECIPIENT_EMAILS" = Ok v
    /\ RECIPIENT_EMAILS sample_config = split comma v
    /\ join [comma] (RECIPIENT_EMAILS sample_config) = v
    /\ length (RECIPIENT_EMAILS sample_config) = S (count_occ N.eq_dec v comma)
    /\ Forall (fun r => ~ In comma r) (RECIPIENT_EMAILS sample_config)
    /\ split comma (tpl "a@x.com,b@y.com") = [tpl "a@x.com"; tpl "b@y.com"].
Proof.
  split; [reflexivity|].
  apply (recipients_split_on_comma sample_environ sample_config).
  reflexivity.
Defined.

(* ================================================================= *)
(** ** The fetch step: what is requested, and when *)

Lemma raise_for_status_error (r : response) :
  (400 <= status_code r < 600)%Z -> raise_for_status r = Raise HTTPError.
Proof.
  intros [Hlo Hhi]. unfold raise_for_status.
  apply Z.leb_le in Hlo. apply Z.ltb_lt in Hhi. now rewrite Hlo, Hhi.
Qed.

Lemma raise_for_status_ok (r : response) :
  ~ (400 <= status_code r < 600)%Z -> raise_for_status r = Ok tt.
Proof.
  intros H. unfold raise_for_status.
  destruct (Z.leb_spec 400 (status_code r)); simpl; [|reflexivity].
  destruct (Z.ltb_spec (status_code r) 600); [|reflexivity].
  exfalso. apply H. lia.
Qed.

Lemma raise_for_status_cases (r : response) :
  ((400 <= status_code r < 600)%Z /\ raise_for_status r = Raise HTTPError)
  \/ (~ (400 <= status_code r < 600)%Z /\ raise_for_status r = Ok tt).
Proof.
  destruct (Z_le_dec 400 (status_code r));
    destruct (Z_lt_dec (status_code r) 600);
    solve [ left; split; [lia | apply raise_for_status_error; lia]
          | right; split; [lia | apply raise_for_status_ok; lia] ].
Qed.

(** The run up to the search request, when the lookup went through. *)
Lemma fetch_after_lookup (cfg : config) (svc : service) (log : list request)
    (resp : response) (d : list (pystr * json)) :
  svc (filter_request cfg) = Some resp ->
  raise_for_status resp = Ok tt ->
  body resp = Some (JDict d) ->
  fetch_jira_issues cfg svc log =
    (let jql := dict_get d (tpl "jql") (JStr []) in
     let filter_name := dict_get d (tpl "name") (JStr (tpl "Jira Filter")) in
     issues_response <--
       requests_get svc (search_url cfg) (basic_auth cfg) (search_params jql) ;;
     _ <-- io_lift (raise_for_status issues_response) ;;
     data <-- io_lift (response_json issues_response) ;;
     issues <-- io_lift (py_get data (tpl "issues") (JList [])) ;;
     total <-- io_lift (py_get data (tpl "total") (JInt 0)) ;;
     io_ret (issues, filter_name, total))%io (log ++ [filter_request cfg]).
Proof.
  intros Hsvc Hst Hbody.
  unfold fetch_jira_issues, io_bind at 1, requests_get at 1.
  unfold filter_request in Hsvc. rewrite Hsvc.
  unfold io_bind at 1, io_lift at 1. rewrite Hst.
  unfold io_bind at 1, io_lift at 1, response_json. rewrite Hbody. simpl bind.
  unfold io_bind at 1, io_lift at 1. simpl bind.
  reflexivity.
Qed.

(** The log of a run that got past the lookup: the search request follows. *)
Lemma fetch_log_after_lookup (cfg : config) (svc : service)
    (log : list request) (resp : response) (d : list (pystr * json)) :
  svc (filter_request cfg) = Some resp ->
  raise_for_status resp = Ok tt ->
  body resp = Some (JDict d) ->
  snd (fetch_jira_issues cfg svc log) =
    log ++ [filter_request cfg;
            search_request cfg (dict_get d (tpl "jql") (JStr []))].
Proof.
  intros Hsvc Hst Hbody.
  rewrite (fetch_after_lookup cfg svc log resp d Hsvc Hst Hbody).
  cbv zeta. unfold io_bind at 1, requests_get.
  fold (search_request cfg (dict_get d (tpl "jql") (JStr []))).
  rewrite <- app_assoc. simpl app.
  destruct (svc (search_request cfg _)) as [r2|]; [|reflexivity].
  unfold io_bind, io_lift, io_ret.
  destruct (raise_for_status r2); [|reflexivity].
  destruct (response_json r2) as [data|]; [|reflexivity].
  destruct (py_get data (tpl "issues") (JList [])); [|reflexivity].
  destruct (py_get data (tpl "total") (JInt 0)); reflexivity.
Qed.

(** C7 (amended): when the filter lookup answers a status from 400 to 599,
    the fetch raises and its only request is the lookup: no search request
    is issued.  In any run the requests are the lookup alone, or the lookup
    followed by the search; the search is issued only when the lookup
    answered a status outside 400..599 with a JSON object, whose jql (or the
    empty string) it carries. *)
Theorem lookup_error_aborts_before_search (cfg : config) (svc : service)
    (log : list request) :
  (forall resp,
      svc (filter_request cfg) = Some resp ->
      (400 <= status_code resp < 600)%Z ->
      fetch_jira_issues cfg svc log
      = (Raise HTTPError, log ++ [filter_request cfg]))
  /\
  (forall res log',
      fetch_jira_issues cfg svc log = (res, log') ->
      (log' = log ++ [filter_request cfg] /\ exists e, res = Raise e)
      \/ exists resp d,
           svc (filter_request cfg) = Some resp
           /\ ~ (400 <= status_code resp < 600)%Z
           /\ body resp = Some (JDict d)
           /\ log' = log ++ [filter_request cfg;
                             search_request cfg
                               (dict_get d (tpl "jql") (JStr []))]).
Proof.
  split.
  - intros resp Hsvc Hst.
    unfold fetch_jira_issues, io_bind at 1, requests_get at 1.
    unfold filter_request in Hsvc. rewrite Hsvc.
    unfold io_bind at 1, io_lift at 1.
    now rewrite (raise_for_status_error resp Hst).
  - intros res log' Hrun.
    destruct (svc (filter_request cfg)) as [resp|] eqn:Hsvc.
    + destruct (raise_for_status_cases resp) as [[Hst Hr]|[Hst Hr]].
      * left. revert Hrun.
        unfold fetch_jira_issues, io_bind at 1, requests_get at 1.
        unfold filter_request in Hsvc. rewrite Hsvc.
        unfold io_bind at 1, io_lift at 1. rewrite Hr.
        intros [= <- <-]. eauto.
      * destruct (body resp) as [[| | | | | |d]|] eqn:Hbody.
        7: { right. exists resp, d. repeat split; try assumption.
             pose proof (fetch_log_after_lookup cfg svc log resp d Hsvc Hr Hbody)
               as Hlog.
             rewrite Hrun in Hlog. exact Hlog. }
        all: left; revert Hrun;
          unfold fetch_jira_issues, io_bind at 1, requests_get at 1;
          unfold filter_request in Hsvc; rewrite Hsvc;
          unfold io_bind at 1, io_lift at 1; rewrite Hr;
          unfold io_bind at 1, io_lift at 1, response_json; rewrite Hbody;
          simpl; intros [= <- <-]; eauto.
    + left. revert Hrun.
      unfold fetch_jira_issues, io_bind at 1, requests_get at 1.
      unfold filter_request in Hsvc. rewrite Hsvc.
      intros [= <- <-]. eauto.
Qed.

Lemma lookup_error_aborts_before_search_witness :
  fetch_jira_issues sample_config (sample_service 404 JNull sample_search) []
  = (Raise HTTPError, [filter_request sample_config])
  /\ exists resp d,
       sample_service 200 sample_filter sample_search
         (filter_request sample_config) = Some resp
       /\ ~ (400 <= status_code resp < 600)%Z
       /\ body resp = Some (JDict d)
       /\ [filter_request sample_config;
           search_request sample_config (JStr (tpl "project = OPS"))]
          = [] ++ [filter_request sample_config;
                   search_request sample_config
                     (dict_get d (tpl "jql") (JStr []))].
Proof.
  split.
  - apply (proj1 (lookup_error_aborts_before_search sample_config
                    (sample_service 404 JNull sample_search) [])
             {| status_code := 404; body := Some JNull |}).
    + reflexivity.
    + simpl. lia.
  - destruct (proj2 (lookup_error_aborts_before_search sample_config
                       (sample_service 200 sample_filter sample_search) [])
                (Ok (JList [], JStr (tpl "Ops"), JInt 0))
                [filter_request sample_config;
                 search_request sample_config (JStr (tpl "project = OPS"))]
                eq_refl) as [[Hlog _]|H].
    + discriminate Hlog.
    + exact H.
Defined.

(** C7, as stated, fails: a lookup answered with status 300 (not a 2xx
    status) and a JSON object raises nothing, and the search request is
    issued. *)
Lemma non_2xx_lookup_reaches_search :
  exists resp,
    sample_service 300 sample_filter sample_search
      (filter_request sample_config) = Some resp
    /\ ~ (200 <= status_code resp < 300)%Z
    /\ fetch_jira_issues sample_config
         (sample_service 300 sample_filter sample_search) []
       = (Ok (JList [], JStr (tpl "Ops"), JInt 0),
          [filter_request sample_config;
           search_request sample_config (JStr (tpl "project = OPS"))]).
Proof.
  exists {| status_code := 300; body := Some sample_filter |}.
  split; [reflexivity|]. split; [simpl; lia|reflexivity].
Qed.

Lemma dict_get_missing {V} (d : list (pystr * V)) (k : pystr) (v : V) :
  lookup k d = None -> dict_get d k v = v.
Proof. intros H. unfold dict_get. now rewrite H. Qed.

(** C10: when both calls go through and answer JSON objects, the fetch
    returns; each key it reads is replaced by a fixed default when the object
    lacks it: the empty string for jql (sent as the search query), Jira Filter
    for the filter name, the empty list for issues and 0 for total. *)
Theorem missing_keys_get_defaults (cfg : config) (svc : service)
    (log : list request) (r1 r2 : response) (d1 d2 : list (pystr * json)) :
  svc (filter_request cfg) = Some r1 ->
  raise_for_status r1 = Ok tt ->
  body r1 = Some (JDict d1) ->
  svc (search_request cfg (dict_get d1 (tpl "jql") (JStr []))) = Some r2 ->
  raise_for_status r2 = Ok tt ->
  body r2 = Some (JDict d2) ->
  exists jql issues filter_name total,
    fetch_jira_issues cfg svc log
    = (Ok (issues, filter_name, total),
       log ++ [filter_request cfg; search_request cfg jql])
    /\ (lookup (tpl "jql") d1 = None -> jql = JStr [])
    /\ (lookup (tpl "name") d1 = None -> filter_name = JStr (tpl "Jira Filter"))
    /\ (lookup (tpl "issues") d2 = None -> issues = JList [])
    /\ (lookup (tpl "total") d2 = None -> total = JInt 0).
Proof.
  intros Hs1 Hst1 Hb1 Hs2 Hst2 Hb2.
  exists (dict_get d1 (tpl "jql") (JStr [])),
         (dict_get d2 (tpl "issues") (JList [])),
         (dict_get d1 (tpl "name") (JStr (tpl "Jira Filter"))),
         (dict_get d2 (tpl "total") (JInt 0)).
  split.
  - rewrite (fetch_after_lookup cfg svc log r1 d1 Hs1 Hst1 Hb1).
    cbv zeta. unfold io_bind at 1, requests_get.
    unfold search_request in Hs2. rewrite Hs2.
    unfold io_bind at 1, io_lift at 1. rewrite Hst2.
    unfold io_bind at 1, io_lift at 1, response_json. rewrite Hb2.
    unfold io_bind, io_lift, io_ret. simpl.
    now rewrite <- app_assoc.
  - repeat split; apply dict_get_missing.
Qed.

Lemma missing_keys_get_defaults_witness :
  fetch_jira_issues sample_config (sample_service 200 (JDict []) (JDict [])) []
  = (Ok (JList [], JStr (tpl "Jira Filter"), JInt 0),
     [filter_request sample_config; search_request sample_config (JStr [])]).
Proof.
  destruct (missing_keys_get_defaults sample_config
              (sample_service 200 (JDict []) (JDict [])) []
              {| status_code := 200; body := Some (JDict []) |}
              {| status_code := 200; body := Some (JDict []) |}
              [] [] eq_refl eq_refl eq_refl eq_refl eq_refl eq_refl)
    as (jql & issues & name & total & Hrun & Hj & Hn & Hi & Ht).
  rewrite (Hj eq_refl), (Hn eq_refl), (Hi eq_refl), (Ht eq_refl) in Hrun.
  exact Hrun.
Defined.

(* ================================================================= *)
(** ** Occurrences of a text in a concatenation *)

Section Occurrences.

Variable p : pystr.

Lemma starts_with_refl_app (b : pystr) : starts_with p (p ++ b) = true.
Proof.
  induction p as [|x q IH]; simpl; [reflexivity|].
  now rewrite N.eqb_refl, IH.
Qed.

Lemma occurrences_app_le (a b : pystr) :
  occurrences p b <= occurrences p (a ++ b).
Proof.
  induction a as [|c a IH]; simpl; [lia|].
  destruct (starts_with p (c :: a ++ b)); lia.
Qed.

Lemma occurrences_here (b : pystr) : 1 <= occurrences p (p ++ b).
Proof.
  pose proof (starts_with_refl_app b) as H.
  destruct (p ++ b) as [|c s] eqn:E; simpl; rewrite H; lia.
Qed.

Lemma contains_app_r (a b : pystr) :
  contains p b = true -> contains p (a ++ b) = true.
Proof.
  unfold contains. rewrite !negb_true_iff, !Nat.eqb_neq.
  pose proof (occurrences_app_le a b). lia.
Qed.

Lemma contains_here (b : pystr) : contains p (p ++ b) = true.
Proof.
  unfold contains. rewrite negb_true_iff, Nat.eqb_neq.
  pose proof (occurrences_here b). lia.
Qed.

Lemma contains_false_iff (s : pystr) :
  contains p s = false <-> occurrences p s = 0.
Proof.
  unfold contains. rewrite negb_false_iff. apply Nat.eqb_eq.
Qed.

Lemma contains_true_iff (s : pystr) :
  contains p s = true <-> 0 < occurrences p s.
Proof.
  unfold contains. rewrite negb_true_iff, Nat.eqb_neq. lia.
Qed.

End Occurrences.

Lemma starts_with_agree (p t b : pystr) :
  starts_with p (t ++ b) = true -> agree p t = true.
Proof.
  revert t. induction p as [|x p IH]; intros [|y t]; simpl; try reflexivity.
  rewrite !andb_true_iff. intros [Hxy H]. split; [exact Hxy|now apply IH].
Qed.

Lemma starts_with_app_inside (p t b : pystr) :
  starts_with p t = true -> starts_with p (t ++ b) = true.
Proof.
  revert t. induction p as [|x p IH]; intros [|y t]; simpl;
    try reflexivity; try discriminate.
  rewrite !andb_true_iff. intros [Hxy H]. split; [exact Hxy|now apply IH].
Qed.

(** A template piece that is [local] keeps its occurrences to itself. *)
Lemma occurrences_app_template (p t b : pystr) :
  p <> [] -> local p t = true ->
  occurrences p (t ++ b) = occurrences p t + occurrences p b.
Proof.
  intros Hp. induction t as [|c t IH]; intros Hloc.
  - simpl. destruct p; [contradiction|reflexivity].
  - simpl in Hloc. apply andb_true_iff in Hloc. destruct Hloc as [Hc Ht].
    change (occurrences p ((c :: t) ++ b))
      with ((if starts_with p (c :: t ++ b) then 1 else 0)
            + occurrences p (t ++ b)).
    rewrite (IH Ht).
    assert (Hsame : starts_with p (c :: t ++ b) = starts_with p (c :: t)).
    { apply orb_true_iff in Hc. destruct Hc as [Hin|Hout].
      - rewrite Hin. exact (starts_with_app_inside p (c :: t) b Hin).
      - apply negb_true_iff in Hout.
        destruct (starts_with p (c :: t ++ b)) eqn:E1.
        + apply (starts_with_agree p (c :: t) b) in E1. congruence.
        + destruct (starts_with p (c :: t)) eqn:E2; [|reflexivity].
          apply (starts_with_app_inside p (c :: t) b) in E2.
          simpl in E2. congruence. }
    rewrite Hsame.
    destruct t as [|c' t']; simpl; [|lia].
    destruct (starts_with p [c]) eqn:E; [|lia].
    destruct p as [|x [|x' p']]; simpl in *; try lia; contradiction.
Qed.

Lemma starts_with_dies (q v t b : pystr) :
  dies q t = true ->
  starts_with q (v ++ t ++ b) = starts_with q v.
Proof.
  revert q. induction v as [|c v IH]; intros q Hd.
  - destruct q as [|x q]; [reflexivity|].
    cbn [dies] in Hd. apply andb_true_iff in Hd. destruct Hd as [Hx _].
    apply negb_true_iff in Hx. simpl app.
    destruct (starts_with (x :: q) (t ++ b)) eqn:E; [|reflexivity].
    apply starts_with_agree in E. congruence.
  - destruct q as [|x q]; [reflexivity|].
    cbn [dies] in Hd. apply andb_true_iff in Hd. destruct Hd as [_ Hq].
    simpl. now rewrite (IH q Hq).
Qed.

(** A value followed by a template piece that [kills] the text keeps its
    occurrences to itself. *)
Lemma occurrences_app_value (p v t b : pystr) :
  kills p t = true ->
  occurrences p (v ++ t ++ b) = occurrences p v + occurrences p (t ++ b).
Proof.
  intros Hk. destruct p as [|x p]; [discriminate|]. simpl in Hk.
  induction v as [|c v IH]; [reflexivity|].
  change (occurrences (x :: p) ((c :: v) ++ t ++ b))
    with ((if starts_with (x :: p) (c :: v ++ t ++ b) then 1 else 0)
          + occurrences (x :: p) (v ++ t ++ b)).
  rewrite IH.
  assert (Hsame : starts_with (x :: p) (c :: v ++ t ++ b)
                  = starts_with (x :: p) (c :: v)).
  { simpl. now rewrite (starts_with_dies p v t b Hk). }
  rewrite Hsame.
  destruct v as [|c' v']; simpl; [|lia].
  destruct (N.eqb x c); simpl; [|lia].
  destruct p; simpl; lia.
Qed.

Lemma starts_with_app_same (a p s : pystr) :
  starts_with p s = true -> starts_with (a ++ p) (a ++ s) = true.
Proof.
  intros H. induction a as [|x a IH]; simpl; [exact H|].
  now rewrite N.eqb_refl, IH.
Qed.

Lemma contains_of_starts_with (p s : pystr) :
  starts_with p s = true -> contains p s = true.
Proof.
  intros H. apply contains_true_iff.
  destruct s as [|c s]; simpl; rewrite H; lia.
Qed.

(** Finds a text, given as a chain of pieces, in a chain of template pieces
    and values: skip pieces from the left until the text is a prefix of the
    remaining chain, piece by piece. *)
Ltac found_here :=
  apply contains_of_starts_with;
  repeat apply starts_with_app_same;
  apply starts_with_refl_app.

Ltac find_loop := first [ found_here | apply contains_app_r; find_loop ].

Ltac find_text := unfold ln; rewrite <- ?app_assoc; find_loop.

(* ================================================================= *)
(** ** The renderer: one row per issue *)

Section RendererProperties.

Variable py_repr : json -> pystr.

Local Abbreviation fmt := (fmt py_repr).
Local Abbreviation issue_row := (issue_row py_repr).
Local Abbreviation row_text := (row_text py_repr).
Local Abbreviation render_row := (render_row py_repr).
Local Abbreviation render_rows := (render_rows py_repr).
Local Abbreviation page := (page py_repr).
Local Abbreviation build_html_report := (build_html_report py_repr).

Lemma render_rows_ok (cfg : config) (issues : list json) (rs : list row) :
  Forall2 (fun i r => issue_row cfg i = Ok r) issues rs ->
  forall rows,
    render_rows cfg issues rows = Ok (rows ++ concat (map row_text rs)).
Proof.
  induction 1 as [|i r issues rs Hi _ IH]; intros rows; cbn [render_rows].
  - now rewrite app_nil_r.
  - unfold render_row. rewrite Hi. cbn [bind]. rewrite IH.
    cbn [map concat]. now rewrite app_assoc.
Qed.

Lemma render_rows_inv (cfg : config) (issues : list json) :
  forall rows out,
    render_rows cfg issues rows = Ok out ->
    exists rs,
      Forall2 (fun i r => issue_row cfg i = Ok r) issues rs
      /\ out = rows ++ concat (map row_text rs).
Proof.
  induction issues as [|i issues IH]; intros rows out; cbn [render_rows].
  - intros [= <-]. exists []. split; [constructor|now rewrite app_nil_r].
  - intros H. apply bind_ok in H. destruct H as [t [Ht H]].
    unfold render_row in Ht. apply bind_ok in Ht.
    destruct Ht as [r [Hr [= <-]]].
    destruct (IH _ _ H) as [rs [Hrs ->]].
    exists (r :: rs). split; [now constructor|].
    cbn [map concat]. now rewrite app_assoc.
Qed.

(** The first issue that cannot be rendered stops the loop. *)
Lemma render_rows_raise (cfg : config) (good : list json) (rs : list row)
    (bad : json) (e : exn) (rest : list json) (rows : pystr) :
  Forall2 (fun i r => issue_row cfg i = Ok r) good rs ->
  issue_row cfg bad = Raise e ->
  render_rows cfg (good ++ bad :: rest) rows = Raise e.
Proof.
  intros Hgood Hbad. revert rows.
  induction Hgood as [|i r good rs Hi _ IH]; intros rows;
    cbn [app render_rows].
  - unfold render_row. now rewrite Hbad.
  - unfold render_row. rewrite Hi. cbn [bind]. apply IH.
Qed.

Lemma row_text_frame (r : row) :
  starts_with ([newline] ++ ln "        <tr>") (row_text r) = true
  /\ ends_with (ln "        </tr>" ++ tpl "        ") (row_text r) = true.
Proof.
  split.
  - unfold row_text. rewrite app_assoc. apply starts_with_refl_app.
  - unfold ends_with, row_text.
    rewrite !rev_app_distr, <- !app_assoc, app_assoc.
    apply starts_with_refl_app.
Qed.

End RendererProperties.

Lemma sample_issue_row :
  issue_row sample_repr sample_config sample_issue = Ok sample_row.
Proof. reflexivity. Qed.

Lemma bare_issue_row :
  issue_row sample_repr sample_config bare_issue = Ok bare_row.
Proof. reflexivity. Qed.

(* ================================================================= *)
(** ** The renderer: the cells of a row *)



Section RowProperties.

Variable py_repr : json -> pystr.

Local Abbreviation fmt := (fmt py_repr).
Local Abbreviation issue_row := (issue_row py_repr).
Local Abbreviation row_text := (row_text py_repr).

(** The loop body succeeds exactly when each of its steps does. *)
Lemma issue_row_intro (cfg : config) (issue k fields sm st a p u : json)
    (col : pystr) :
  py_item issue (tpl "key") = Ok k ->
  py_item issue (tpl "fields") = Ok fields ->
  py_get fields (tpl "summary") (JStr (tpl "N/A")) = Ok sm ->
  status_of fields = Ok st ->
  assignee_of fields = Ok a ->
  priority_of fields = Ok p ->
  updated_of fields = Ok u ->
  status_color_of st = Ok col ->
  issue_row cfg issue
  = Ok {| key := k; summary := sm; status := st; assignee := a;
          priority := p; updated := u;
          issue_url := JIRA_SITE cfg ++ tpl "/browse/" ++ fmt k;
          status_color := col |}.
Proof.
  intros Hk Hf Hsm Hst Ha Hp Hu Hc. unfold issue_row.
  rewrite Hk, Hf. cbn [bind]. rewrite Hsm, Hst, Ha, Hp, Hu. cbn [bind].
  now rewrite Hc.
Qed.

Lemma issue_row_inv (cfg : config) (issue : json) (r : row) :
  issue_row cfg issue = Ok r ->
  exists fields,
    py_item issue (tpl "key") = Ok (key r)
    /\ py_item issue (tpl "fields") = Ok fields
    /\ py_get fields (tpl "summary") (JStr (tpl "N/A")) = Ok (summary r)
    /\ status_of fields = Ok (status r)
    /\ assignee_of fields = Ok (assignee r)
    /\ priority_of fields = Ok (priority r)
    /\ updated_of fields = Ok (updated r)
    /\ status_color_of (status r) = Ok (status_color r)
    /\ issue_url r = JIRA_SITE cfg ++ tpl "/browse/" ++ fmt (key r).
Proof.
  unfold issue_row. intros H.
  apply bind_ok in H. destruct H as [k [Hk H]].
  apply bind_ok in H. destruct H as [f [Hf H]].
  apply bind_ok in H. destruct H as [sm [Hsm H]].
  apply bind_ok in H. destruct H as [st [Hst H]].
  apply bind_ok in H. destruct H as [a [Ha H]].
  apply bind_ok in H. destruct H as [p [Hp H]].
  apply bind_ok in H. destruct H as [u [Hu H]].
  cbv zeta in H.
  apply bind_ok in H. destruct H as [c [Hc H]].
  injection H as <-. exists f. cbn [key summary status assignee priority
    updated issue_url status_color].
  repeat split; assumption.
Qed.

Lemma assignee_absent (fields : list (pystr * json)) :
  lookup (tpl "assignee") fields = None
  \/ lookup (tpl "assignee") fields = Some JNull ->
  assignee_of (JDict fields) = Ok (JStr (tpl "Unassigned")).
Proof.
  unfold assignee_of, py_get, dict_get. intros [H|H]; rewrite H; reflexivity.
Qed.

Lemma priority_absent (fields : list (pystr * json)) :
  lookup (tpl "priority") fields = None
  \/ lookup (tpl "priority") fields = Some JNull ->
  priority_of (JDict fields) = Ok (JStr (tpl "N/A")).
Proof.
  unfold priority_of, py_get, dict_get. intros [H|H]; rewrite H; reflexivity.
Qed.






End RowProperties.




(* ================================================================= *)
(** ** The renderer: the page around the rows *)

Section PageProperties.

Variable py_repr : json -> pystr.

Local Abbreviation fmt := (fmt py_repr).
Local Abbreviation issue_row := (issue_row py_repr).
Local Abbreviation render_row := (render_row py_repr).
Local Abbreviation render_rows := (render_rows py_repr).
Local Abbreviation page := (page py_repr).
Local Abbreviation build_html_report := (build_html_report py_repr).

Lemma page_header (cfg : config) (today : pystr) (filter_name total : json)
    (rows notice : pystr) :
  contains
    (tpl "<h1 style=`color:#fff; margin:0; font-size:22px;`>"
     ++ [clipboard] ++ tpl " " ++ fmt filter_name ++ tpl "</h1>")
    (page cfg today filter_name total rows notice) = true
  /\ contains
       (tpl "<p style=`color:#b3d4ff; margin:6px 0 0;`>" ++ today
        ++ tpl " &nbsp;" ++ [middle_dot] ++ tpl "&nbsp; " ++ fmt total
        ++ tpl " issue(s) found</p>")
       (page cfg today filter_name total rows notice) = true
  /\ contains (fmt filter_name)
       (page cfg today filter_name total rows notice) = true
  /\ contains (fmt total ++ tpl " issue(s) found")
       (page cfg today filter_name total rows notice) = true.
Proof.
  unfold page.
  change (tpl "            <h1 style=`color:#fff; margin:0; font-size:22px;`>")
    with (tpl "            "
          ++ tpl "<h1 style=`color:#fff; margin:0; font-size:22px;`>").
  change (tpl "            <p style=`color:#b3d4ff; margin:6px 0 0;`>")
    with (tpl "            " ++ tpl "<p style=`color:#b3d4ff; margin:6px 0 0;`>").
  split; [find_text|]. split; [find_text|]. split; [find_text|].
  change (ln " issue(s) found</p>")
    with (tpl " issue(s) found" ++ tpl "</p>" ++ [newline]).
  find_text.
Qed.

(** C9: whenever the rows can be rendered the report is built, and its
    header holds the filter name in the h1 element and, after the date, the
    total followed by the words issue(s) found.  A filter name that is the
    string Sprint Board shows as Sprint Board, and the total 0 shows as
    0 issue(s) found. *)
Theorem header_shows_name_and_total (cfg : config) (now : datetime)
    (issues : list json) (filter_name total : json) (rows : pystr) :
  render_rows cfg issues [] = Ok rows ->
  exists html,
    build_html_report cfg now issues filter_name total = Ok html
    /\ contains
         (tpl "<h1 style=`color:#fff; margin:0; font-size:22px;`>"
          ++ [clipboard] ++ tpl " " ++ fmt filter_name ++ tpl "</h1>")
         html = true
    /\ contains
         (tpl "<p style=`color:#b3d4ff; margin:6px 0 0;`>"
          ++ strftime_B_d_Y now ++ tpl " &nbsp;" ++ [middle_dot]
          ++ tpl "&nbsp; " ++ fmt total ++ tpl " issue(s) found</p>")
         html = true
    /\ contains (fmt filter_name) html = true
    /\ contains (fmt total ++ tpl " issue(s) found") html = true
    /\ (filter_name = JStr (tpl "Sprint Board") ->
        contains (tpl "Sprint Board") html = true)
    /\ (total = JInt 0 -> contains (tpl "0 issue(s) found") html = true).
Proof.
  intros Hrows. unfold build_html_report. rewrite Hrows. cbn [bind].
  eexists. split; [reflexivity|].
  destruct (page_header cfg (strftime_B_d_Y now) filter_name total rows
              (notice_for issues)) as (H1 & H2 & H3 & H4).
  repeat split; try assumption.
  - intros ->. exact H3.
  - intros ->. exact H4.
Qed.

Lemma strftime_date_only (t t' : datetime) :
  year t = year t' -> month t = month t' -> day t = day t' ->
  strftime_B_d_Y t = strftime_B_d_Y t'.
Proof. unfold strftime_B_d_Y. now intros -> -> ->. Qed.

Lemma issue_row_site (cfg cfg' : config) (issue : json) :
  JIRA_SITE cfg = JIRA_SITE cfg' -> issue_row cfg issue = issue_row cfg' issue.
Proof. unfold issue_row. now intros ->. Qed.

Lemma render_rows_site (cfg cfg' : config) (issues : list json) :
  JIRA_SITE cfg = JIRA_SITE cfg' ->
  forall rows, render_rows cfg issues rows = render_rows cfg' issues rows.
Proof.
  intros Hs. induction issues as [|i issues IH]; intros rows;
    cbn [render_rows].
  - reflexivity.
  - unfold render_row. rewrite (issue_row_site cfg cfg' i Hs).
    destruct (issue_row cfg' i); cbn [bind]; [apply IH|reflexivity].
Qed.

(** C6 (amended): the report depends on the clock only through the
    calendar date, and on the settings only through JIRA_SITE: two calls
    with equal issues, filter name and total, made on the same date under
    the same JIRA_SITE, give the same result. *)
Theorem deterministic_on_a_given_date (cfg cfg' : config)
    (now now' : datetime) (issues : list json) (filter_name total : json) :
  JIRA_SITE cfg = JIRA_SITE cfg' ->
  year now = year now' -> month now = month now' -> day now = day now' ->
  build_html_report cfg now issues filter_name total
  = build_html_report cfg' now' issues filter_name total.
Proof.
  intros Hs Hy Hm Hd. unfold build_html_report.
  rewrite (strftime_date_only now now' Hy Hm Hd).
  rewrite (render_rows_site cfg cfg' issues Hs []).
  unfold page. now rewrite Hs.
Qed.

End PageProperties.

Lemma header_shows_name_and_total_witness :
  exists html,
    build_html_report sample_repr sample_config sample_clock []
      (JStr (tpl "Sprint Board")) (JInt 0) = Ok html
    /\ contains (tpl "Sprint Board") html = true
    /\ contains (tpl "0 issue(s) found") html = true.
Proof.
  destruct (header_shows_name_and_total sample_repr sample_config sample_clock
              [] (JStr (tpl "Sprint Board")) (JInt 0) [] eq_refl)
    as (html & Hb & _ & _ & _ & _ & Hn & Ht).
  exists html. split; [exact Hb|].
  split; [exact (Hn eq_refl)|exact (Ht eq_refl)].
Defined.

Lemma deterministic_on_a_given_date_witness :
  build_html_report sample_repr sample_config sample_clock
    [sample_issue; bare_issue] (JStr (tpl "Ops")) (JInt 2)
  = build_html_report sample_repr sample_config
      {| year := 2024; month := 3; day := 15;
         hour := 23; minute := 59; second := 59; microsecond := 999999 |}
      [sample_issue; bare_issue] (JStr (tpl "Ops")) (JInt 2).
Proof.
  apply (deterministic_on_a_given_date sample_repr sample_config sample_config
           sample_clock
           {| year := 2024; month := 3; day := 15;
              hour := 23; minute := 59; second := 59; microsecond := 999999 |});
    reflexivity.
Defined.

(** C6, as stated, fails: the same issues, filter name and total rendered
    on two different days give two different documents. *)
Lemma same_arguments_different_days :
  build_html_report sample_repr sample_config sample_clock
    [] (JStr (tpl "Ops")) (JInt 0)
  <> build_html_report sample_repr sample_config sample_clock_next
       [] (JStr (tpl "Ops")) (JInt 0).
Proof.
  intros H.
  apply (f_equal (fun r => match r with
                           | Ok html => contains (tpl "March 15, 2024") html
                           | Raise _ => false
                           end)) in H.
  vm_compute in H. discriminate H.
Qed.

(* ================================================================= *)
(** ** Where the notice of the empty report can occur *)

Lemma occurrences_nil_pos (t : pystr) : 1 <= occurrences [] t.
Proof. destruct t; simpl; lia. Qed.

Lemma occurrences_app_silent (p t b : pystr) :
  silent p t = true -> occurrences p (t ++ b) = occurrences p b.
Proof.
  unfold silent. intros H. apply andb_true_iff in H. destruct H as [Hl Hz].
  apply Nat.eqb_eq in Hz.
  rewrite occurrences_app_template; [now rewrite Hz|
                                     |exact Hl].
  intros ->. pose proof (occurrences_nil_pos t). lia.
Qed.

(** Splits the count of a text over a chain of template pieces and values. *)
Ltac count_pieces :=
  repeat first
    [ rewrite occurrences_app_silent by (vm_compute; reflexivity)
    | rewrite occurrences_app_value by (vm_compute; reflexivity) ].

Lemma occurrences_no_head (x : N) (p s : pystr) :
  ~ In x s -> occurrences (x :: p) s = 0.
Proof.
  induction s as [|c s IH]; intros Hn; [reflexivity|].
  cbn [occurrences starts_with].
  destruct (N.eqb_spec x c) as [->|_].
  - exfalso. apply Hn. now left.
  - rewrite IH; [reflexivity|]. intros Hin. apply Hn. now right.
Qed.

Lemma digits_no_capital_N (d : Decimal.uint) :
  ~ In 78%N (map N_of_ascii
               (list_ascii_of_string (NilEmpty.string_of_uint d))).
Proof.
  induction d; simpl; intros H;
    repeat (destruct H as [H|H]; [discriminate H|]); auto.
Qed.

Lemma str_of_int_no_capital_N (z : Z) : ~ In 78%N (str_of_int z).
Proof.
  unfold str_of_int, NilZero.string_of_int, NilZero.string_of_uint.
  destruct (Z.to_int z) as [d|d].
  - destruct d; try apply digits_no_capital_N.
    simpl. intros [H|[]]. discriminate H.
  - cbn [list_ascii_of_string map]. intros [H|H]; [discriminate H|].
    revert H. destruct d; try apply digits_no_capital_N.
    simpl. intros [H|[]]. discriminate H.
Qed.

Lemma strftime_without_notice (t : datetime) :
  occurrences no_issues_text (strftime_B_d_Y t) = 0.
Proof.
  unfold strftime_B_d_Y.
  assert (Htail : occurrences no_issues_text
                    (tpl " " ++ two_digits (day t) ++ tpl ", "
                     ++ str_of_int (year t)) = 0).
  { change no_issues_text
      with (78%N :: tpl "o issues found in this filter.").
    apply occurrences_no_head. intros Hin.
    apply in_app_or in Hin. destruct Hin as [H|H].
    { vm_compute in H. destruct H as [H|[]]. discriminate H. }
    apply in_app_or in H. destruct H as [H|H].
    { unfold two_digits in H. destruct (day t <? 10)%Z.
      - apply in_app_or in H. destruct H as [H|H].
        + vm_compute in H. destruct H as [H|[]]. discriminate H.
        + exact (str_of_int_no_capital_N _ H).
      - exact (str_of_int_no_capital_N _ H). }
    apply in_app_or in H. destruct H as [H|H].
    { vm_compute in H. destruct H as [H|[H|[]]]; discriminate H. }
    exact (str_of_int_no_capital_N _ H). }
  unfold month_name. generalize (Z.to_nat (month t - 1)). intros k.
  do 12 (destruct k as [|k];
         [ cbn [nth month_names];
           rewrite occurrences_app_silent by (vm_compute; reflexivity);
           exact Htail | ]).
  replace (nth (S (S (S (S (S (S (S (S (S (S (S (S k))))))))))))
             month_names ""%string) with ""%string
    by (destruct k; reflexivity).
  exact Htail.
Qed.

Lemma status_color_without_notice (st : json) (c : pystr) :
  status_color_of st = Ok c -> occurrences no_issues_text c = 0.
Proof.
  unfold status_color_of. destruct (hashable st); [|discriminate].
  intros [= <-]. destruct st; try (vm_compute; reflexivity).
  unfold status_colors. cbn [lookup].
  repeat match goal with
         | |- context [pystr_eqb s ?k] => destruct (pystr_eqb s k)
         end; vm_compute; reflexivity.
Qed.

Lemma list_sum_pos {A} (f : A -> nat) (l : list A) :
  0 < list_sum (map f l) <-> Exists (fun x => 0 < f x) l.
Proof.
  induction l as [|x l IH]; simpl.
  - rewrite Exists_nil. lia.
  - rewrite Exists_cons, <- IH. lia.
Qed.

Lemma Exists_iff {A} (P Q : A -> Prop) (l : list A) :
  (forall x, P x <-> Q x) -> Exists P l <-> Exists Q l.
Proof.
  intros H. split; apply Exists_impl; intros x; apply H.
Qed.

Section NoticeProperties.

Variable py_repr : json -> pystr.

Local Abbreviation fmt := (fmt py_repr).
Local Abbreviation issue_row := (issue_row py_repr).
Local Abbreviation row_text := (row_text py_repr).
Local Abbreviation row_values := (row_values py_repr).
Local Abbreviation row_count := (row_count py_repr).
Local Abbreviation render_rows := (render_rows py_repr).
Local Abbreviation page := (page py_repr).
Local Abbreviation build_html_report := (build_html_report py_repr).

Lemma row_text_notice (cfg : config) (issue : json) (r : row) (b : pystr) :
  issue_row cfg issue = Ok r ->
  occurrences no_issues_text (row_text r ++ b)
  = row_count no_issues_text (JIRA_SITE cfg) r
    + occurrences no_issues_text b.
Proof.
  intros Hr. apply issue_row_inv in Hr.
  destruct Hr as (f & _ & _ & _ & _ & _ & _ & _ & Hc & Hurl).
  apply status_color_without_notice in Hc.
  unfold row_text. rewrite <- !app_assoc. count_pieces.
  rewrite Hc, Hurl. count_pieces.
  unfold row_count, row_values. cbn [map list_sum fold_right]. lia.
Qed.

Lemma rows_notice (cfg : config) (issues : list json) (rs : list row) :
  Forall2 (fun i r => issue_row cfg i = Ok r) issues rs ->
  forall b,
    occurrences no_issues_text (concat (map row_text rs) ++ b)
    = list_sum (map (row_count no_issues_text (JIRA_SITE cfg)) rs)
      + occurrences no_issues_text b.
Proof.
  unfold list_sum.
  induction 1 as [|i r issues rs Hi _ IH]; intros b;
    cbn [map concat fold_right].
  - reflexivity.
  - rewrite <- app_assoc, (row_text_notice cfg i r _ Hi), IH. lia.
Qed.

Lemma page_notice (cfg : config) (today : pystr) (filter_name total : json)
    (rows notice : pystr) :
  occurrences no_issues_text (page cfg today filter_name total rows notice)
  = occurrences no_issues_text (fmt filter_name)
    + occurrences no_issues_text today
    + occurrences no_issues_text (fmt total)
    + occurrences no_issues_text rows
    + occurrences no_issues_text notice
    + occurrences no_issues_text (JIRA_SITE cfg).
Proof.
  rewrite <- (app_nil_r (page cfg today filter_name total rows notice)).
  unfold page. rewrite <- !app_assoc. count_pieces.
  replace (occurrences no_issues_text []) with 0 by reflexivity. lia.
Qed.

Lemma row_count_pos (p site : pystr) (r : row) :
  0 < row_count p site r
  <-> 0 < occurrences p site
      \/ Exists (fun v => 0 < occurrences p v) (row_values r).
Proof.
  unfold row_count. split.
  - intros H.
    destruct (Nat.eq_dec (occurrences p site) 0) as [Hs|Hs]; [|left; lia].
    right.
    destruct (Nat.eq_dec (occurrences p (fmt (key r))) 0) as [Hk|Hk].
    + apply list_sum_pos. lia.
    + unfold row_values. apply Exists_cons_hd. lia.
  - intros [H|H]; [lia|]. apply list_sum_pos in H. lia.
Qed.

(** C2 (amended): for the empty issue list the report has an empty table
    body and contains the text of the notice.  For a non-empty list no notice
    is added below the table: the report contains the text exactly when one
    of the values it interpolates does (the filter name, the total, the site
    address, or the key, summary, status, assignee, priority or date of an
    issue), so the text is absent when none of them holds it. *)
Theorem no_issues_notice_only_for_empty_list (cfg : config) (now : datetime)
    (filter_name total : json) :
  (exists html,
      build_html_report cfg now [] filter_name total = Ok html
      /\ html = page cfg (strftime_B_d_Y now) filter_name total []
                  no_issues_notice
      /\ contains (tpl "<tbody></tbody>") html = true
      /\ contains no_issues_text html = true)
  /\
  (forall issues html,
      issues <> [] ->
      build_html_report cfg now issues filter_name total = Ok html ->
      exists rs,
        Forall2 (fun i r => issue_row cfg i = Ok r) issues rs
        /\ html = page cfg (strftime_B_d_Y now) filter_name total
                    (concat (map row_text rs)) []
        /\ (contains no_issues_text html = true <->
              contains no_issues_text (fmt filter_name) = true
              \/ contains no_issues_text (fmt total) = true
              \/ contains no_issues_text (JIRA_SITE cfg) = true
              \/ Exists (fun r =>
                           Exists (fun v => contains no_issues_text v = true)
                                  (row_values r)) rs)).
Proof.
  split.
  - eexists. split; [reflexivity|]. split; [reflexivity|]. split.
    + unfold page. rewrite app_nil_l.
      change (tpl "                <tbody>")
        with (tpl "                " ++ tpl "<tbody>").
      change (tpl "<tbody></tbody>") with (tpl "<tbody>" ++ tpl "</tbody>").
      find_text.
    + cbn [notice_for]. unfold page, no_issues_notice. find_text.
  - intros issues html Hne Hb. unfold build_html_report in Hb.
    apply bind_ok in Hb. destruct Hb as [rows [Hrows [= <-]]].
    apply render_rows_inv in Hrows. destruct Hrows as [rs [Hrs ->]].
    exists rs. cbn [app].
    destruct issues as [|i issues]; [contradiction|]. cbn [notice_for].
    split; [exact Hrs|]. split; [reflexivity|].
    rewrite !contains_true_iff, page_notice, strftime_without_notice.
    rewrite <- (app_nil_r (concat (map row_text rs))).
    rewrite (rows_notice cfg (i :: issues) rs Hrs []).
    replace (occurrences no_issues_text []) with 0 by reflexivity.
    rewrite (Exists_iff _ (fun r => Exists (fun v => 0 < occurrences no_issues_text v)
                                     (row_values r)) rs)
      by (intros r; apply Exists_iff; intros v; apply contains_true_iff).
    split.
    + intros Hpos.
      destruct (Nat.eq_dec (occurrences no_issues_text (fmt filter_name)) 0)
        as [Hf|Hf]; [|left; lia].
      destruct (Nat.eq_dec (occurrences no_issues_text (fmt total)) 0)
        as [Ht|Ht]; [|right; left; lia].
      destruct (Nat.eq_dec (occurrences no_issues_text (JIRA_SITE cfg)) 0)
        as [Hs|Hs]; [|right; right; left; lia].
      right. right. right.
      assert (HS : 0 < list_sum (map (row_count no_issues_text (JIRA_SITE cfg))
                                   rs)) by lia.
      apply list_sum_pos in HS. revert HS. apply Exists_impl.
      intros r Hr. apply row_count_pos in Hr. destruct Hr as [Hr|Hr]; [lia|].
      exact Hr.
    + intros [H|[H|[H|H]]]; try lia.
      assert (HS : 0 < list_sum (map (row_count no_issues_text (JIRA_SITE cfg))
                                   rs)).
      { apply list_sum_pos. revert H. apply Exists_impl.
        intros r Hr. apply row_count_pos. now right. }
      lia.
Qed.

End NoticeProperties.

Lemma no_issues_notice_only_for_empty_list_witness :
  exists html,
    build_html_report sample_repr sample_config sample_clock [sample_issue]
      (JStr (tpl "Ops")) (JInt 1) = Ok html
    /\ contains no_issues_text html = false.
Proof.
  pose (html := page sample_repr sample_config (tpl "March 15, 2024")
                  (JStr (tpl "Ops")) (JInt 1)
                  (row_text sample_repr sample_row) []).
  assert (Hb : build_html_report sample_repr sample_config sample_clock
                 [sample_issue] (JStr (tpl "Ops")) (JInt 1) = Ok html)
    by reflexivity.
  destruct (proj2 (no_issues_notice_only_for_empty_list sample_repr
                     sample_config sample_clock (JStr (tpl "Ops")) (JInt 1))
              [sample_issue] html ltac:(discriminate) Hb)
    as (rs & Hrs & _ & Hiff).
  exists html. split; [exact Hb|].
  destruct (contains no_issues_text html); [|reflexivity].
  exfalso. destruct (proj1 Hiff eq_refl) as [H|[H|[H|H]]];
    try (vm_compute in H; discriminate H).
  inversion Hrs as [|i r tl rs' Hr Hnil]; subst. inversion Hnil; subst.
  rewrite sample_issue_row in Hr. injection Hr as <-.
  inversion H as [r rs' Hv|r rs' Hv]; subst.
  - vm_compute in Hv.
    repeat match goal with
           | Hx : Exists _ _ |- _ => inversion Hx; clear Hx; subst
           | Hx : true = false |- _ => discriminate Hx
           | Hx : false = true |- _ => discriminate Hx
           end.
  - inversion Hv.
Defined.

(** C2, as stated, fails: a report of one issue whose summary reads like
    the notice contains the text of the notice. *)
Lemma notice_text_in_a_non_empty_report :
  [echo_issue] <> []
  /\ match build_html_report sample_repr sample_config sample_clock
            [echo_issue] (JStr (tpl "Ops")) (JInt 1) with
     | Ok html => contains no_issues_text html
     | Raise _ => false
     end = true.
Proof. split; [discriminate|]. vm_compute. reflexivity. Qed.

(* ================================================================= *)
(** ** The settings: what a start needs *)

Lemma getenv_cases (e : environ) (name : string) :
  (exists v, lookup (tpl name) e = Some v /\ getenv e name = Ok v)
  \/ (lookup (tpl name) e = None /\ getenv e name = Raise KeyError).
Proof.
  unfold getenv. destruct (lookup (tpl name) e) as [v|]; eauto.
Qed.

(** X1: the settings load exactly when all seven variables are set; each
    setting is then the value of its variable (the recipients are the value
    split on the comma), and a start with a variable missing raises
    KeyError, never anything else. *)
Theorem load_config_needs_every_variable (e : environ) :
  (load_config e = Raise KeyError
   <-> exists name, In name required_settings /\ lookup (tpl name) e = None)
  /\ (forall x, load_config e = Raise x -> x = KeyError)
  /\ (forall cfg,
        load_config e = Ok cfg ->
        lookup (tpl "JIRA_SITE") e = Some (JIRA_SITE cfg)
        /\ lookup (tpl "JIRA_EMAIL") e = Some (JIRA_EMAIL cfg)
        /\ lookup (tpl "JIRA_API_TOKEN") e = Some (JIRA_API_TOKEN cfg)
        /\ lookup (tpl "JIRA_FILTER_ID") e = Some (JIRA_FILTER_ID cfg)
        /\ lookup (tpl "SENDER_EMAIL") e = Some (SENDER_EMAIL cfg)
        /\ lookup (tpl "SENDER_PASSWORD") e = Some (SENDER_PASSWORD cfg)
        /\ exists v, lookup (tpl "RECIPIENT_EMAILS") e = Some v
                     /\ RECIPIENT_EMAILS cfg = split comma v).
Proof.
  unfold load_config, required_settings.
  destruct (getenv_cases e "JIRA_SITE") as [(v1 & L1 & G1)|(L1 & G1)];
    rewrite G1; cbn [bind];
    [|split; [split; [intros _; exists "JIRA_SITE"%string; simpl; auto
                     |reflexivity]
             |split; [now intros x [= <-]|discriminate]]].
  destruct (getenv_cases e "JIRA_EMAIL") as [(v2 & L2 & G2)|(L2 & G2)];
    rewrite G2; cbn [bind];
    [|split; [split; [intros _; exists "JIRA_EMAIL"%string; simpl; auto
                     |reflexivity]
             |split; [now intros x [= <-]|discriminate]]].
  destruct (getenv_cases e "JIRA_API_TOKEN") as [(v3 & L3 & G3)|(L3 & G3)];
    rewrite G3; cbn [bind];
    [|split; [split; [intros _; exists "JIRA_API_TOKEN"%string; simpl; auto
                     |reflexivity]
             |split; [now intros x [= <-]|discriminate]]].
  destruct (getenv_cases e "JIRA_FILTER_ID") as [(v4 & L4 & G4)|(L4 & G4)];
    rewrite G4; cbn [bind];
    [|split; [split; [intros _; exists "JIRA_FILTER_ID"%string; simpl; auto 6
                     |reflexivity]
             |split; [now intros x [= <-]|discriminate]]].
  destruct (getenv_cases e "SENDER_EMAIL") as [(v5 & L5 & G5)|(L5 & G5)];
    rewrite G5; cbn [bind];
    [|split; [split; [intros _; exists "SENDER_EMAIL"%string; simpl; auto 7
                     |reflexivity]
             |split; [now intros x [= <-]|discriminate]]].
  destruct (getenv_cases e "SENDER_PASSWORD") as [(v6 & L6 & G6)|(L6 & G6)];
    rewrite G6; cbn [bind];
    [|split; [split; [intros _; exists "SENDER_PASSWORD"%string; simpl; auto 8
                     |reflexivity]
             |split; [now intros x [= <-]|discriminate]]].
  destruct (getenv_cases e "RECIPIENT_EMAILS") as [(v7 & L7 & G7)|(L7 & G7)];
    rewrite G7; cbn [bind];
    [|split; [split; [intros _; exists "RECIPIENT_EMAILS"%string; simpl; auto 9
                     |reflexivity]
             |split; [now intros x [= <-]|discriminate]]].
  split; [split; [discriminate|]|split; [discriminate|]].
  - intros (name & Hin & Hnone). simpl in Hin.
    repeat (destruct Hin as [<-|Hin]; [congruence|]). destruct Hin.
  - intros cfg [= <-]. cbn. repeat split; try assumption. eauto.
Qed.

Lemma load_config_needs_every_variable_witness :
  load_config (tl sample_environ) = Raise KeyError
  /\ lookup (tpl "SENDER_EMAIL") sample_environ
     = Some (SENDER_EMAIL sample_config).
Proof.
  split.
  - apply (proj1 (load_config_needs_every_variable (tl sample_environ))).
    exists "JIRA_SITE"%string. split; [now left|reflexivity].
  - exact (proj1 (proj2 (proj2 (proj2 (proj2
             (proj2 (proj2 (load_config_needs_every_variable sample_environ))
                sample_config eq_refl)))))).
Defined.

Lemma split_without_separator (sep : N) (s : pystr) :
  ~ In sep s -> split sep s = [s].
Proof.
  induction s as [|c s IH]; intros Hn; [reflexivity|]. simpl.
  destruct (N.eqb_spec c sep) as [->|_].
  - exfalso. apply Hn. now left.
  - rewrite IH; [reflexivity|]. intros H. apply Hn. now right.
Qed.

(** X2: splitting distributes over the separator: the segments of a text
    cut at a comma are the segments of what precedes the comma followed by
    the segments of what follows it, and a text without a comma is one
    segment.  So every comma, also a leading, trailing or doubled one, adds a
    recipient, empty if need be, and the empty text gives one empty
    recipient. *)
Theorem split_at_each_separator (sep : N) (a b s : pystr) :
  split sep (a ++ sep :: b) = split sep a ++ split sep b
  /\ (~ In sep s -> split sep s = [s])
  /\ split sep (s ++ [sep]) = split sep s ++ [[]]
  /\ split sep [] = [[]].
Proof.
  assert (Happ : forall x y,
             split sep (x ++ sep :: y) = split sep x ++ split sep y).
  { intros x y. induction x as [|c x IH]; simpl.
    - now rewrite N.eqb_refl.
    - destruct (N.eqb c sep); [now rewrite IH|].
      rewrite IH. pose proof (split_not_nil sep x) as Hnn.
      destruct (split sep x); [contradiction|reflexivity]. }
  split; [apply Happ|]. split; [apply split_without_separator|].
  split; [|reflexivity]. apply (Happ s []).
Qed.

Lemma split_at_each_separator_witness :
  split comma (tpl "a@x.com" ++ [comma]) = [tpl "a@x.com"; []].
Proof.
  rewrite (proj1 (proj2 (proj2 (split_at_each_separator comma [] []
                                  (tpl "a@x.com"))))).
  rewrite (proj1 (proj2 (split_at_each_separator comma [] []
                           (tpl "a@x.com")))).
  - reflexivity.
  - vm_compute. intros H.
    repeat (destruct H as [H|H]; [discriminate H|]). exact H.
Defined.

(* ================================================================= *)
(** ** The fetch step: every way a run can end *)

(** The outcome of the fetch step, case by case. *)
Lemma fetch_outcome (cfg : config) (svc : service) (log : list request) :
  fetch_jira_issues cfg svc log =
  match svc (filter_request cfg) with
  | None => (Raise ConnectionError, log ++ [filter_request cfg])
  | Some r1 =>
      match raise_for_status r1 with
      | Raise e => (Raise e, log ++ [filter_request cfg])
      | Ok _ =>
          match body r1 with
          | None => (Raise JSONDecodeError, log ++ [filter_request cfg])
          | Some (JDict d1) =>
              let jql := dict_get d1 (tpl "jql") (JStr []) in
              let log2 :=
                log ++ [filter_request cfg; search_request cfg jql] in
              match svc (search_request cfg jql) with
              | None => (Raise ConnectionError, log2)
              | Some r2 =>
                  match raise_for_status r2 with
                  | Raise e => (Raise e, log2)
                  | Ok _ =>
                      match body r2 with
                      | None => (Raise JSONDecodeError, log2)
                      | Some (JDict d2) =>
                          (Ok (dict_get d2 (tpl "issues") (JList []),
                               dict_get d1 (tpl "name")
                                 (JStr (tpl "Jira Filter")),
                               dict_get d2 (tpl "total") (JInt 0)), log2)
                      | Some _ => (Raise AttributeError, log2)
                      end
                  end
              end
          | Some _ => (Raise AttributeError, log ++ [filter_request cfg])
          end
      end
  end.
Proof.
  destruct (svc (filter_request cfg)) as [r1|] eqn:Hs1.
  2:{ unfold fetch_jira_issues, io_bind at 1, requests_get at 1.
      unfold filter_request in Hs1. now rewrite Hs1. }
  destruct (raise_for_status r1) as [[]|e] eqn:Hr1.
  2:{ unfold fetch_jira_issues, io_bind at 1, requests_get at 1.
      unfold filter_request in Hs1. rewrite Hs1.
      unfold io_bind at 1, io_lift at 1. now rewrite Hr1. }
  destruct (body r1) as [j|] eqn:Hb1.
  2:{ unfold fetch_jira_issues, io_bind at 1, requests_get at 1.
      unfold filter_request in Hs1. rewrite Hs1.
      unfold io_bind at 1, io_lift at 1. rewrite Hr1.
      unfold io_bind at 1, io_lift at 1, response_json. now rewrite Hb1. }
  destruct j as [| | | | | |d1].
  7:{ rewrite (fetch_after_lookup cfg svc log r1 d1 Hs1 Hr1 Hb1).
      cbv zeta. unfold io_bind at 1, requests_get.
      fold (search_request cfg (dict_get d1 (tpl "jql") (JStr []))).
      rewrite <- app_assoc. cbn [app].
      destruct (svc (search_request cfg _)) as [r2|]; [|reflexivity].
      unfold io_bind at 1, io_lift at 1.
      destruct (raise_for_status r2) as [[]|e]; [|reflexivity].
      unfold io_bind at 1, io_lift at 1, response_json.
      destruct (body r2) as [[| | | | | |d2]|]; reflexivity. }
  all: unfold fetch_jira_issues, io_bind at 1, requests_get at 1;
    unfold filter_request in Hs1; rewrite Hs1;
    unfold io_bind at 1, io_lift at 1; rewrite Hr1;
    unfold io_bind at 1, io_lift at 1, response_json; rewrite Hb1;
    reflexivity.
Qed.

Lemma raise_for_status_only_http (r : response) (e : exn) :
  raise_for_status r = Raise e ->
  e = HTTPError /\ (400 <= status_code r < 600)%Z.
Proof.
  destruct (raise_for_status_cases r) as [[Hst Hr]|[Hst Hr]]; rewrite Hr.
  - intros [= <-]. now split.
  - discriminate.
Qed.

(** X3: the ways the filter lookup can fail other than by its status: no
    response raises ConnectionError, a body that is not JSON raises
    JSONDecodeError, a JSON body that is not an object raises AttributeError;
    each time the lookup is the only request issued. *)
Theorem lookup_failures_stop_the_fetch (cfg : config) (svc : service)
    (log : list request) :
  (svc (filter_request cfg) = None ->
   fetch_jira_issues cfg svc log
   = (Raise ConnectionError, log ++ [filter_request cfg]))
  /\ (forall r,
        svc (filter_request cfg) = Some r ->
        ~ (400 <= status_code r < 600)%Z ->
        body r = None ->
        fetch_jira_issues cfg svc log
        = (Raise JSONDecodeError, log ++ [filter_request cfg]))
  /\ (forall r j,
        svc (filter_request cfg) = Some r ->
        ~ (400 <= status_code r < 600)%Z ->
        body r = Some j ->
        (forall d, j <> JDict d) ->
        fetch_jira_issues cfg svc log
        = (Raise AttributeError, log ++ [filter_request cfg])).
Proof.
  rewrite fetch_outcome. split; [|split].
  - now intros ->.
  - intros r -> Hst Hb. rewrite (raise_for_status_ok r Hst), Hb. reflexivity.
  - intros r j -> Hst Hb Hj. rewrite (raise_for_status_ok r Hst), Hb.
    destruct j; try reflexivity. now destruct (Hj d).
Qed.

Lemma lookup_failures_stop_the_fetch_witness :
  fetch_jira_issues sample_config (fun _ => None) []
  = (Raise ConnectionError, [filter_request sample_config])
  /\ fetch_jira_issues sample_config
       (sample_service 200 (JList []) sample_search) []
     = (Raise AttributeError, [filter_request sample_config]).
Proof.
  split.
  - exact (proj1 (lookup_failures_stop_the_fetch sample_config
                    (fun _ => None) []) eq_refl).
  - apply (proj2 (proj2 (lookup_failures_stop_the_fetch sample_config
                           (sample_service 200 (JList []) sample_search) []))
             {| status_code := 200; body := Some (JList []) |} (JList [])).
    + reflexivity.
    + simpl. lia.
    + reflexivity.
    + discriminate.
Defined.

(** X4: once the lookup went through, a search that fails ends the fetch
    with its error after exactly the two requests, with no second attempt:
    HTTPError for a status from 400 to 599, ConnectionError for no response,
    JSONDecodeError for a body that is not JSON, AttributeError for a JSON
    body that is not an object. *)
Theorem search_failures_end_the_fetch (cfg : config) (svc : service)
    (log : list request) (r1 : response) (d1 : list (pystr * json)) :
  svc (filter_request cfg) = Some r1 ->
  ~ (400 <= status_code r1 < 600)%Z ->
  body r1 = Some (JDict d1) ->
  let search := search_request cfg (dict_get d1 (tpl "jql") (JStr [])) in
  let log2 := log ++ [filter_request cfg; search] in
  (svc search = None ->
   fetch_jira_issues cfg svc log = (Raise ConnectionError, log2))
  /\ (forall r2,
        svc search = Some r2 -> (400 <= status_code r2 < 600)%Z ->
        fetch_jira_issues cfg svc log = (Raise HTTPError, log2))
  /\ (forall r2,
        svc search = Some r2 -> ~ (400 <= status_code r2 < 600)%Z ->
        body r2 = None ->
        fetch_jira_issues cfg svc log = (Raise JSONDecodeError, log2))
  /\ (forall r2 j,
        svc search = Some r2 -> ~ (400 <= status_code r2 < 600)%Z ->
        body r2 = Some j -> (forall d, j <> JDict d) ->
        fetch_jira_issues cfg svc log = (Raise AttributeError, log2)).
Proof.
  intros Hs1 Hst1 Hb1 search log2. subst search log2.
  rewrite fetch_outcome, Hs1, (raise_for_status_ok r1 Hst1), Hb1. cbv zeta.
  split; [|split; [|split]].
  - now intros ->.
  - intros r2 -> Hst. now rewrite (raise_for_status_error r2 Hst).
  - intros r2 -> Hst Hb. now rewrite (raise_for_status_ok r2 Hst), Hb.
  - intros r2 j -> Hst Hb Hj. rewrite (raise_for_status_ok r2 Hst), Hb.
    destruct j; try reflexivity. now destruct (Hj d).
Qed.

Lemma search_failures_end_the_fetch_witness :
  fetch_jira_issues sample_config
    (fun r =>
       if pystr_eqb (req_url r) (filter_url sample_config)
       then Some {| status_code := 200; body := Some sample_filter |}
       else Some {| status_code := 503; body := None |}) []
  = (Raise HTTPError,
     [filter_request sample_config;
      search_request sample_config (JStr (tpl "project = OPS"))]).
Proof.
  apply (proj1 (proj2 (search_failures_end_the_fetch sample_config _ []
                         {| status_code := 200; body := Some sample_filter |}
                         [ (tpl "jql", JStr (tpl "project = OPS"));
                           (tpl "name", JStr (tpl "Ops")) ]
                         eq_refl ltac:(simpl; lia) eq_refl))
           {| status_code := 503; body := None |}).
  - reflexivity.
  - simpl. lia.
Defined.

(** X5: the fetch returns exactly when both calls are answered with a
    status outside 400..599 and a JSON object; what it returns is then the
    issues and the total of the search answer as they stand (the total is not
    compared with the number of issues returned) and the name of the filter,
    each replaced by its default when missing. *)
Theorem fetch_returns_exactly_when (cfg : config) (svc : service)
    (log log' : list request) (issues filter_name total : json) :
  fetch_jira_issues cfg svc log = (Ok (issues, filter_name, total), log')
  <->
  exists r1 d1 r2 d2,
    svc (filter_request cfg) = Some r1
    /\ ~ (400 <= status_code r1 < 600)%Z
    /\ body r1 = Some (JDict d1)
    /\ svc (search_request cfg (dict_get d1 (tpl "jql") (JStr []))) = Some r2
    /\ ~ (400 <= status_code r2 < 600)%Z
    /\ body r2 = Some (JDict d2)
    /\ issues = dict_get d2 (tpl "issues") (JList [])
    /\ filter_name = dict_get d1 (tpl "name") (JStr (tpl "Jira Filter"))
    /\ total = dict_get d2 (tpl "total") (JInt 0)
    /\ log' = log ++ [filter_request cfg;
                      search_request cfg (dict_get d1 (tpl "jql") (JStr []))].
Proof.
  rewrite fetch_outcome. split.
  - destruct (svc (filter_request cfg)) as [r1|] eqn:Hs1; [|discriminate].
    destruct (raise_for_status_cases r1) as [[Hst1 Hr1]|[Hst1 Hr1]];
      rewrite Hr1; [discriminate|].
    destruct (body r1) as [[| | | | | |d1]|] eqn:Hb1; try discriminate.
    cbv zeta.
    destruct (svc (search_request cfg _)) as [r2|] eqn:Hs2; [|discriminate].
    destruct (raise_for_status_cases r2) as [[Hst2 Hr2]|[Hst2 Hr2]];
      rewrite Hr2; [discriminate|].
    destruct (body r2) as [[| | | | | |d2]|] eqn:Hb2; try discriminate.
    intros [= <- <- <- <-]. exists r1, d1, r2, d2. repeat split; auto.
  - intros (r1 & d1 & r2 & d2 & Hs1 & Hst1 & Hb1 & Hs2 & Hst2 & Hb2
            & -> & -> & -> & ->).
    rewrite Hs1, (raise_for_status_ok r1 Hst1), Hb1. cbv zeta.
    now rewrite Hs2, (raise_for_status_ok r2 Hst2), Hb2.
Qed.

Lemma fetch_returns_exactly_when_witness :
  fetch_jira_issues sample_config
    (sample_service 200 sample_filter
       (JDict [ (tpl "issues", JList [JNull]); (tpl "total", JInt 250) ])) []
  = (Ok (JList [JNull], JStr (tpl "Ops"), JInt 250),
     [filter_request sample_config;
      search_request sample_config (JStr (tpl "project = OPS"))]).
Proof.
  apply (proj2 (fetch_returns_exactly_when sample_config _ [] _ _ _ _)).
  exists {| status_code := 200; body := Some sample_filter |},
         [ (tpl "jql", JStr (tpl "project = OPS"));
           (tpl "name", JStr (tpl "Ops")) ],
         {| status_code := 200;
            body := Some (JDict [ (tpl "issues", JList [JNull]);
                                  (tpl "total", JInt 250) ]) |},
         [ (tpl "issues", JList [JNull]); (tpl "total", JInt 250) ].
  repeat split; try reflexivity; simpl; lia.
Defined.

(** X6: whatever the service answers, the fetch issues one or two requests
    and no more (no retry, no further page); each goes to an address under
    JIRA_SITE and carries the configured e-mail and token; the first is the
    filter lookup, and a second one is the search, capped at 100 results and
    asking for the six fields. *)
Theorem fetch_requests_stay_on_site (cfg : config) (svc : service)
    (log log' : list request) (res : result (json * json * json)) :
  fetch_jira_issues cfg svc log = (res, log') ->
  exists new,
    log' = log ++ new
    /\ 1 <= length new <= 2
    /\ Forall (fun r => req_auth r = (JIRA_EMAIL cfg, JIRA_API_TOKEN cfg)
                        /\ starts_with (JIRA_SITE cfg) (req_url r) = true)
              new
    /\ nth_error new 0 = Some (filter_request cfg)
    /\ (forall r, nth_error new 1 = Some r ->
          req_url r = JIRA_SITE cfg ++ tpl "/rest/api/3/search"
          /\ lookup (tpl "maxResults") (req_params r) = Some (JInt 100)
          /\ lookup (tpl "fields") (req_params r)
             = Some (JStr (tpl "summary,status,assignee,priority,updated,issuetype"))).
Proof.
  assert (Hone : exists new,
             log ++ [filter_request cfg] = log ++ new
             /\ 1 <= length new <= 2
             /\ Forall (fun r => req_auth r = (JIRA_EMAIL cfg, JIRA_API_TOKEN cfg)
                          /\ starts_with (JIRA_SITE cfg) (req_url r) = true)
                       new
             /\ nth_error new 0 = Some (filter_request cfg)
             /\ (forall r, nth_error new 1 = Some r ->
                   req_url r = JIRA_SITE cfg ++ tpl "/rest/api/3/search"
                   /\ lookup (tpl "maxResults") (req_params r) = Some (JInt 100)
                   /\ lookup (tpl "fields") (req_params r)
                      = Some (JStr (tpl "summary,status,assignee,priority,updated,issuetype")))).
  { exists [filter_request cfg]. split; [reflexivity|].
    split; [simpl; lia|]. split; [|split; [reflexivity|discriminate]].
    repeat constructor. apply starts_with_refl_app. }
  assert (Htwo : forall jql, exists new,
             log ++ [filter_request cfg; search_request cfg jql] = log ++ new
             /\ 1 <= length new <= 2
             /\ Forall (fun r => req_auth r = (JIRA_EMAIL cfg, JIRA_API_TOKEN cfg)
                          /\ starts_with (JIRA_SITE cfg) (req_url r) = true)
                       new
             /\ nth_error new 0 = Some (filter_request cfg)
             /\ (forall r, nth_error new 1 = Some r ->
                   req_url r = JIRA_SITE cfg ++ tpl "/rest/api/3/search"
                   /\ lookup (tpl "maxResults") (req_params r) = Some (JInt 100)
                   /\ lookup (tpl "fields") (req_params r)
                      = Some (JStr (tpl "summary,status,assignee,priority,updated,issuetype")))).
  { intros jql. exists [filter_request cfg; search_request cfg jql].
    split; [reflexivity|]. split; [simpl; lia|].
    split; [|split; [reflexivity|]].
    - repeat constructor; apply starts_with_refl_app.
    - intros r [= <-]. repeat split. }
  rewrite fetch_outcome.
  destruct (svc (filter_request cfg)) as [r1|]; [|intros [= <- <-]; exact Hone].
  destruct (raise_for_status r1) as [[]|e]; [|intros [= <- <-]; exact Hone].
  destruct (body r1) as [[| | | | | |d1]|];
    try (intros [= <- <-]; exact Hone).
  cbv zeta.
  destruct (svc (search_request cfg _)) as [r2|];
    [|intros [= <- <-]; apply Htwo].
  destruct (raise_for_status r2) as [[]|e]; [|intros [= <- <-]; apply Htwo].
  destruct (body r2) as [[| | | | | |d2]|]; intros [= <- <-]; apply Htwo.
Qed.

Lemma fetch_requests_stay_on_site_witness :
  exists new,
    [filter_request sample_config;
     search_request sample_config (JStr (tpl "project = OPS"))] = [] ++ new
    /\ 1 <= length new <= 2.
Proof.
  destruct (fetch_requests_stay_on_site sample_config
              (sample_service 200 sample_filter sample_search) []
              [filter_request sample_config;
               search_request sample_config (JStr (tpl "project = OPS"))]
              (Ok (JList [], JStr (tpl "Ops"), JInt 0)) eq_refl)
    as (new & Hlog & Hlen & _).
  exists new. split; assumption.
Defined.

(* ================================================================= *)
(** ** The renderer: which issues can be rendered *)

Lemma optional_dict_get (x : json) (k : pystr) (dflt : json) :
  (exists v, py_get (py_or x (JDict [])) k dflt = Ok v)
  <-> optional_dict x = true.
Proof.
  unfold py_or, optional_dict.
  destruct x as [|b|z|q|s|l|d]; cbn [truthy];
    try destruct b; try destruct (Z.eqb z 0);
    try destruct (Z.eqb (Qnum q) 0); try destruct s; try destruct l;
    try destruct d; cbn [negb py_get];
    (split;
     [ intros [v H]; first [reflexivity | discriminate H]
     | intros H; first [discriminate H | eauto] ]).
Qed.

Lemma optional_dict_raise (x : json) (k : pystr) (dflt : json) :
  optional_dict x = false ->
  py_get (py_or x (JDict [])) k dflt = Raise AttributeError.
Proof.
  unfold py_or, optional_dict.
  destruct x; simpl; try (destruct b); try (destruct (Z.eqb _ 0));
    try (destruct s); try (destruct l); simpl; intros H;
    try reflexivity; discriminate.
Qed.

Section WellFormedIssues.

Variable py_repr : json -> pystr.

Local Abbreviation fmt := (fmt py_repr).
Local Abbreviation issue_row := (issue_row py_repr).
Local Abbreviation row_text := (row_text py_repr).
Local Abbreviation render_rows := (render_rows py_repr).
Local Abbreviation build_html_report := (build_html_report py_repr).
Local Abbreviation build_html_report_of := (build_html_report_of py_repr).

Lemma fields_readable (f : list (pystr * json)) :
  (exists st a p u c,
      status_of (JDict f) = Ok st /\ assignee_of (JDict f) = Ok a
      /\ priority_of (JDict f) = Ok p /\ updated_of (JDict f) = Ok u
      /\ status_color_of st = Ok c)
  <-> well_formed_fields f = true.
Proof.
  unfold well_formed_fields, status_of, assignee_of, priority_of, updated_of.
  cbn [py_get bind]. rewrite !andb_true_iff.
  rewrite <- (optional_dict_get (dict_get f (tpl "assignee") JNull)
                (tpl "displayName") (JStr (tpl "Unassigned"))).
  rewrite <- (optional_dict_get (dict_get f (tpl "priority") JNull)
                (tpl "name") (JStr (tpl "N/A"))).
  split.
  - intros (st & a & p & u & c & Hst & Ha & Hp & Hu & Hc).
    repeat split; eauto.
    + destruct (dict_get f (tpl "status") (JDict [])); try discriminate.
      cbn [py_get] in Hst. injection Hst as <-.
      unfold status_color_of in Hc.
      destruct (hashable _); [reflexivity|discriminate].
    + destruct (dict_get f (tpl "updated") (JStr [])); try discriminate;
        reflexivity.
  - intros [[[Hst [a Ha]] [p Hp]] Hu].
    destruct (dict_get f (tpl "status") (JDict [])) as [| | | | | |sd];
      try discriminate.
    exists (dict_get sd (tpl "name") (JStr (tpl "N/A"))), a, p.
    destruct (dict_get f (tpl "updated") (JStr [])) as [| | | |s|l|];
      try discriminate.
    + do 2 eexists. repeat split; eauto.
      unfold status_color_of. now rewrite Hst.
    + do 2 eexists. repeat split; eauto.
      unfold status_color_of. now rewrite Hst.
Qed.

Lemma issue_row_ok_well_formed (cfg : config) (issue : json) (r : row) :
  issue_row cfg issue = Ok r -> well_formed_issue issue = true.
Proof.
  intros Hr. apply issue_row_inv in Hr.
  destruct Hr as (f & Hk & Hf & Hsm & Hst & Ha & Hp & Hu & Hc & _).
  destruct issue as [| | | | | |d]; try discriminate.
  cbn [py_item] in Hk, Hf. cbn [well_formed_issue].
  destruct (lookup (tpl "key") d); [|discriminate].
  destruct (lookup (tpl "fields") d) as [f'|]; [|discriminate].
  injection Hf as ->.
  destruct f as [| | | | | |fd]; try discriminate.
  apply fields_readable. eauto 10.
Qed.

Lemma well_formed_issue_row (cfg : config) (issue : json) :
  well_formed_issue issue = true -> exists r, issue_row cfg issue = Ok r.
Proof.
  destruct issue as [| | | | | |d]; try discriminate.
  cbn [well_formed_issue].
  destruct (lookup (tpl "key") d) as [k|] eqn:Hk; [|discriminate].
  destruct (lookup (tpl "fields") d) as [[| | | | | |fd]|] eqn:Hf;
    try discriminate.
  intros Hwf. apply fields_readable in Hwf.
  destruct Hwf as (st & a & p & u & c & Hst & Ha & Hp & Hu & Hc).
  eexists.
  apply (issue_row_intro py_repr cfg (JDict d) k (JDict fd)
           (dict_get fd (tpl "summary") (JStr (tpl "N/A"))) st a p u c);
    try assumption; try reflexivity.
  - cbn [py_item]. now rewrite Hk.
  - cbn [py_item]. now rewrite Hf.
Qed.

(** X7: the loop body renders an issue exactly when the issue is well
    formed: a dict with a key and with fields that are a dict in which the
    status is absent or a dict with a hashable name, the assignee and the
    priority are absent, false or dicts, and the updated value is absent, a
    string or a list.  Nothing else is asked of the values. *)
Theorem issue_row_succeeds_iff (cfg : config) (issue : json) :
  (exists r, issue_row cfg issue = Ok r) <-> well_formed_issue issue = true.
Proof.
  split.
  - intros [r Hr]. exact (issue_row_ok_well_formed cfg issue r Hr).
  - apply well_formed_issue_row.
Qed.

Lemma render_rows_all_or_nothing (cfg : config) (issues : list json) :
  forall rows,
    (exists out, render_rows cfg issues rows = Ok out)
    <-> forallb well_formed_issue issues = true.
Proof.
  induction issues as [|i issues IH]; intros rows; cbn [render_rows forallb].
  - split; eauto.
  - rewrite andb_true_iff. unfold render_row. split.
    + intros [out H]. apply bind_ok in H. destruct H as [t [Ht H]].
      apply bind_ok in Ht. destruct Ht as [r [Hr _]].
      split; [exact (issue_row_ok_well_formed cfg i r Hr)|].
      apply (IH (rows ++ t)). eauto.
    + intros [Hi Hall]. destruct (well_formed_issue_row cfg i Hi) as [r Hr].
      rewrite Hr. cbn [bind]. apply (IH (rows ++ row_text r)). exact Hall.
Qed.

(** X8: the report is built exactly when every issue of the list is well
    formed, whatever the filter name and the total are; one issue that is not
    leaves no report at all. *)
Theorem report_built_iff_all_well_formed (cfg : config) (now : datetime)
    (issues : list json) (filter_name total : json) :
  (exists html,
      build_html_report cfg now issues filter_name total = Ok html)
  <-> forallb well_formed_issue issues = true.
Proof.
  rewrite <- (render_rows_all_or_nothing cfg issues []).
  unfold build_html_report. split.
  - intros [html H]. apply bind_ok in H. destruct H as [rows [Hrows _]]. eauto.
  - intros [rows Hrows]. rewrite Hrows. cbn [bind]. eauto.
Qed.

(** X9: the loop stops at the first issue that cannot be rendered: when
    the issues before it are well formed and its own rendering raises e,
    building the report raises e, whatever follows in the list. *)
Theorem first_bad_issue_fails_the_report (cfg : config) (now : datetime)
    (good : list json) (bad : json) (rest : list json) (e : exn)
    (filter_name total : json) :
  forallb well_formed_issue good = true ->
  issue_row cfg bad = Raise e ->
  build_html_report cfg now (good ++ bad :: rest) filter_name total = Raise e.
Proof.
  intros Hgood Hbad. unfold build_html_report.
  assert (Hrs : exists rs,
             Forall2 (fun i r => issue_row cfg i = Ok r) good rs).
  { clear -Hgood. induction good as [|i good IH].
    - exists []. constructor.
    - cbn [forallb] in Hgood. apply andb_true_iff in Hgood.
      destruct Hgood as [Hi Hg]. apply (well_formed_issue_row cfg) in Hi.
      destruct Hi as [r Hr]. destruct (IH Hg) as [rs Hrs].
      exists (r :: rs). now constructor. }
  destruct Hrs as [rs Hrs].
  now rewrite (render_rows_raise py_repr cfg good rs bad e rest [] Hrs Hbad).
Qed.

(** X10: an issue of the wrong shape stops the loop body at its first two
    lines: an issue that is not a dict raises TypeError, a dict without key
    or without fields raises KeyError, and fields that are not a dict (null
    for one) raise AttributeError. *)
Theorem misshapen_issue_raises (cfg : config) :
  (forall issue, (forall d, issue <> JDict d) ->
     issue_row cfg issue = Raise TypeError)
  /\ (forall d, lookup (tpl "key") d = None ->
        issue_row cfg (JDict d) = Raise KeyError)
  /\ (forall d k, lookup (tpl "key") d = Some k ->
        lookup (tpl "fields") d = None ->
        issue_row cfg (JDict d) = Raise KeyError)
  /\ (forall d k f, lookup (tpl "key") d = Some k ->
        lookup (tpl "fields") d = Some f ->
        (forall fd, f <> JDict fd) ->
        issue_row cfg (JDict d) = Raise AttributeError).
Proof.
  unfold issue_row. repeat split.
  - intros issue Hn. destruct issue; try reflexivity. now destruct (Hn d).
  - intros d Hk. cbn [py_item]. now rewrite Hk.
  - intros d k Hk Hf. cbn [py_item]. now rewrite Hk, Hf.
  - intros d k f Hk Hf Hn. cbn [py_item]. rewrite Hk, Hf. cbn [bind].
    destruct f; try reflexivity. now destruct (Hn d0).
Qed.

(** X11: inside the fields the loop body is stricter about the status than
    about the assignee: a status that is present and not a dict (null for
    one) raises AttributeError, whereas the assignee and the priority raise
    it only when they are true and not dicts (a plain name, a number); an
    updated value that is null, a number or a Boolean raises TypeError, and
    so does a status name that is a list or a dict. *)
Theorem unreadable_field_raises (cfg : config) (issue k : json)
    (fd : list (pystr * json)) :
  py_item issue (tpl "key") = Ok k ->
  py_item issue (tpl "fields") = Ok (JDict fd) ->
  (forall x, lookup (tpl "status") fd = Some x -> (forall sd, x <> JDict sd) ->
     issue_row cfg issue = Raise AttributeError)
  /\ (forall st, status_of (JDict fd) = Ok st ->
        optional_dict (dict_get fd (tpl "assignee") JNull) = false ->
        issue_row cfg issue = Raise AttributeError)
  /\ (forall st a, status_of (JDict fd) = Ok st ->
        assignee_of (JDict fd) = Ok a ->
        optional_dict (dict_get fd (tpl "priority") JNull) = false ->
        issue_row cfg issue = Raise AttributeError)
  /\ (forall st a p x, status_of (JDict fd) = Ok st ->
        assignee_of (JDict fd) = Ok a ->
        priority_of (JDict fd) = Ok p ->
        lookup (tpl "updated") fd = Some x ->
        (forall s, x <> JStr s) -> (forall l, x <> JList l) ->
        (forall d, x <> JDict d) ->
        issue_row cfg issue = Raise TypeError)
  /\ (forall st a p u, status_of (JDict fd) = Ok st ->
        assignee_of (JDict fd) = Ok a ->
        priority_of (JDict fd) = Ok p ->
        updated_of (JDict fd) = Ok u ->
        hashable st = false ->
        issue_row cfg issue = Raise TypeError).
Proof.
  intros Hk Hf. unfold issue_row. rewrite Hk, Hf. cbn [bind py_get].
  repeat split.
  - intros x Hx Hn. unfold status_of, py_get at 1, dict_get. rewrite Hx.
    cbn [bind]. destruct x; try reflexivity. now destruct (Hn d).
  - intros st Hst Ha. rewrite Hst. cbn [bind].
    unfold assignee_of. cbn [py_get bind].
    now rewrite (optional_dict_raise _ _ _ Ha).
  - intros st a Hst Ha Hp. rewrite Hst, Ha. cbn [bind].
    unfold priority_of. cbn [py_get bind].
    now rewrite (optional_dict_raise _ _ _ Hp).
  - intros st a p x Hst Ha Hp Hx Hs Hl Hd. rewrite Hst, Ha, Hp. cbn [bind].
    unfold updated_of, py_get, dict_get. rewrite Hx. cbn [bind].
    destruct x as [| | | |s|l|d];
      [reflexivity|reflexivity|reflexivity|reflexivity
      |now destruct (Hs s)|now destruct (Hl l)|now destruct (Hd d)].
  - intros st a p u Hst Ha Hp Hu Hh. rewrite Hst, Ha, Hp, Hu. cbn [bind].
    unfold status_color_of. now rewrite Hh.
Qed.

(** X12: a default is used for a missing key only: a value that is present
    is shown as it is, so a summary, a status name, a display name or a
    priority name that is null is shown as None. *)
Theorem present_values_are_shown (cfg : config) (issue : json)
    (fd : list (pystr * json)) (r : row) :
  py_item issue (tpl "fields") = Ok (JDict fd) ->
  issue_row cfg issue = Ok r ->
  (forall v, lookup (tpl "summary") fd = Some v -> summary r = v)
  /\ (forall sd v, lookup (tpl "status") fd = Some (JDict sd) ->
        lookup (tpl "name") sd = Some v -> status r = v)
  /\ (forall ad v, lookup (tpl "assignee") fd = Some (JDict ad) ->
        lookup (tpl "displayName") ad = Some v -> assignee r = v)
  /\ (forall pd v, lookup (tpl "priority") fd = Some (JDict pd) ->
        lookup (tpl "name") pd = Some v -> priority r = v)
  /\ fmt JNull = tpl "None".
Proof.
  intros Hf Hr. apply issue_row_inv in Hr.
  destruct Hr as (f & _ & Hf' & Hsm & Hst & Ha & Hp & _).
  rewrite Hf in Hf'. injection Hf' as <-.
  repeat split.
  - intros v Hv. cbn [py_get] in Hsm. unfold dict_get in Hsm.
    rewrite Hv in Hsm. now injection Hsm.
  - intros sd v Hs Hv. unfold status_of in Hst. cbn [py_get bind] in Hst.
    unfold dict_get in Hst. rewrite Hs in Hst. cbn [py_get] in Hst.
    unfold dict_get in Hst. rewrite Hv in Hst. now injection Hst.
  - intros ad v Hs Hv. unfold assignee_of in Ha. cbn [py_get bind] in Ha.
    unfold dict_get in Ha. rewrite Hs in Ha.
    unfold py_or in Ha. destruct ad as [|kv ad]; [discriminate Hv|].
    cbn [truthy py_get] in Ha. unfold dict_get in Ha. rewrite Hv in Ha.
    now injection Ha.
  - intros pd v Hs Hv. unfold priority_of in Hp. cbn [py_get bind] in Hp.
    unfold dict_get in Hp. rewrite Hs in Hp.
    unfold py_or in Hp. destruct pd as [|kv pd]; [discriminate Hv|].
    cbn [truthy py_get] in Hp. unfold dict_get in Hp. rewrite Hv in Hp.
    now injection Hp.
Qed.

(** X13: an issue whose fields hold none of the five keys is rendered all
    the same, with N/A for the summary, the status and the priority,
    Unassigned for the assignee, an empty date and the default colour. *)
Theorem empty_fields_render_defaults (cfg : config) (issue k : json)
    (fd : list (pystr * json)) :
  py_item issue (tpl "key") = Ok k ->
  py_item issue (tpl "fields") = Ok (JDict fd) ->
  lookup (tpl "summary") fd = None ->
  lookup (tpl "status") fd = None ->
  lookup (tpl "assignee") fd = None ->
  lookup (tpl "priority") fd = None ->
  lookup (tpl "updated") fd = None ->
  issue_row cfg issue
  = Ok {| key := k;
          summary := JStr (tpl "N/A");
          status := JStr (tpl "N/A");
          assignee := JStr (tpl "Unassigned");
          priority := JStr (tpl "N/A");
          updated := JStr [];
          issue_url := JIRA_SITE cfg ++ tpl "/browse/" ++ fmt k;
          status_color := tpl "#6b7280" |}.
Proof.
  intros Hk Hf Hsm Hst Ha Hp Hu.
  apply (issue_row_intro py_repr cfg issue k (JDict fd)); try assumption.
  - cbn [py_get]. unfold dict_get. now rewrite Hsm.
  - unfold status_of. cbn [py_get bind]. unfold dict_get.
    now rewrite Hst.
  - apply assignee_absent. now left.
  - apply priority_absent. now left.
  - unfold updated_of. cbn [py_get bind]. unfold dict_get. now rewrite Hu.
  - reflexivity.
Qed.

(** X14: every row links to the issue: its first cell is an anchor whose
    address is JIRA_SITE, the path /browse/ and the key, and whose text is
    the key. *)
Theorem row_links_to_the_issue (cfg : config) (issue : json) (r : row) :
  issue_row cfg issue = Ok r ->
  py_item issue (tpl "key") = Ok (key r)
  /\ contains
       (tpl "<a href=`" ++ JIRA_SITE cfg ++ tpl "/browse/" ++ fmt (key r)
        ++ tpl "` style=`color:#2563eb; font-weight:600; text-decoration:none;`>"
        ++ fmt (key r) ++ tpl "</a>")
       (row_text r) = true.
Proof.
  intros Hr. apply issue_row_inv in Hr.
  destruct Hr as (f & Hk & _ & _ & _ & _ & _ & _ & _ & Hurl).
  split; [exact Hk|]. unfold row_text. rewrite Hurl.
  change (tpl "                <a href=`")
    with (tpl "                " ++ tpl "<a href=`").
  find_text.
Qed.

(** X15: what [build_html_report] does with an object that is not a list:
    a list is rendered item by item; null, a number or a Boolean cannot be
    iterated and raises TypeError; an empty dict or an empty string gives the
    report of no issue; a dict or a string that is not empty raises
    TypeError at its first key or character, which is not an issue. *)
Theorem report_of_any_object (cfg : config) (now : datetime)
    (issues filter_name total : json) :
  (forall l, issues = JList l ->
     build_html_report_of cfg now issues filter_name total
     = build_html_report cfg now l filter_name total)
  /\ (issues = JNull \/ (exists b, issues = JBool b)
      \/ (exists z, issues = JInt z) \/ (exists q, issues = JFloat q) ->
      build_html_report_of cfg now issues filter_name total = Raise TypeError)
  /\ (issues = JDict [] \/ issues = JStr [] ->
      build_html_report_of cfg now issues filter_name total
      = build_html_report cfg now [] filter_name total)
  /\ (forall items, iter_items issues = Ok items ->
        items <> [] -> (forall l, issues <> JList l) ->
        build_html_report_of cfg now issues filter_name total
        = Raise TypeError).
Proof.
  unfold build_html_report_of. repeat split.
  - now intros l ->.
  - intros [->|[[b ->]|[[z ->]|[q ->]]]]; reflexivity.
  - intros [->| ->]; reflexivity.
  - intros items Hit Hne Hnl. rewrite Hit. cbn [bind].
    destruct issues as [| | | |s|l|d]; try discriminate.
    + injection Hit as <-. destruct s as [|c s]; [contradiction|]. reflexivity.
    + now destruct (Hnl l).
    + injection Hit as <-. destruct d as [|kv d]; [contradiction|]. reflexivity.
Qed.

(** X16: an assignee that is present but false (an empty dict, an empty
    string, zero, false) is treated like an absent one, and so is a dict
    without displayName: the row shows Unassigned; likewise for the priority
    and N/A. *)
Theorem false_or_nameless_assignee (fd : list (pystr * json)) (x : json) :
  (lookup (tpl "assignee") fd = Some x ->
   (truthy x = false ->
    assignee_of (JDict fd) = Ok (JStr (tpl "Unassigned")))
   /\ (forall ad, x = JDict ad -> lookup (tpl "displayName") ad = None ->
         assignee_of (JDict fd) = Ok (JStr (tpl "Unassigned"))))
  /\ (lookup (tpl "priority") fd = Some x ->
      (truthy x = false ->
       priority_of (JDict fd) = Ok (JStr (tpl "N/A")))
      /\ (forall pd, x = JDict pd -> lookup (tpl "name") pd = None ->
            priority_of (JDict fd) = Ok (JStr (tpl "N/A")))).
Proof.
  split; intros Hx; (split; [intros Hf|intros d -> Hn]).
  - unfold assignee_of. cbn [py_get bind]. unfold dict_get at 1.
    rewrite Hx. unfold py_or. now rewrite Hf.
  - unfold assignee_of. cbn [py_get bind]. unfold dict_get at 1.
    rewrite Hx. unfold py_or. destruct d as [|kv d]; [reflexivity|].
    cbn [truthy py_get]. unfold dict_get. now rewrite Hn.
  - unfold priority_of. cbn [py_get bind]. unfold dict_get at 1.
    rewrite Hx. unfold py_or. now rewrite Hf.
  - unfold priority_of. cbn [py_get bind]. unfold dict_get at 1.
    rewrite Hx. unfold py_or. destruct d as [|kv d]; [reflexivity|].
    cbn [truthy py_get]. unfold dict_get. now rewrite Hn.
Qed.

End WellFormedIssues.

Lemma issue_row_succeeds_iff_witness :
  well_formed_issue bare_issue = true.
Proof.
  apply (proj1 (issue_row_succeeds_iff sample_repr sample_config bare_issue)).
  exists bare_row. exact bare_issue_row.
Defined.

Lemma report_built_iff_all_well_formed_witness :
  exists html,
    build_html_report sample_repr sample_config sample_clock
      [sample_issue; bare_issue] (JStr (tpl "Ops")) JNull = Ok html.
Proof.
  apply (proj2 (report_built_iff_all_well_formed sample_repr sample_config
                  sample_clock [sample_issue; bare_issue]
                  (JStr (tpl "Ops")) JNull)).
  reflexivity.
Defined.

Lemma first_bad_issue_fails_the_report_witness :
  build_html_report sample_repr sample_config sample_clock
    ([sample_issue] ++ JNull :: [bare_issue]) (JStr (tpl "Ops")) (JInt 3)
  = Raise TypeError.
Proof.
  apply (first_bad_issue_fails_the_report sample_repr sample_config
           sample_clock [sample_issue] JNull [bare_issue] TypeError);
    reflexivity.
Defined.

Lemma misshapen_issue_raises_witness :
  issue_row sample_repr sample_config JNull = Raise TypeError
  /\ issue_row sample_repr sample_config (issue_with_fields JNull)
     = Raise AttributeError.
Proof.
  split.
  - apply (proj1 (misshapen_issue_raises sample_repr sample_config)).
    discriminate.
  - apply (proj2 (proj2 (proj2 (misshapen_issue_raises sample_repr
                                  sample_config)))
             _ (JStr (tpl "OPS-1")) JNull); try reflexivity. discriminate.
Defined.

Lemma unreadable_field_raises_witness :
  issue_row sample_repr sample_config
    (issue_with_fields (JDict null_status_fields))
  = Raise AttributeError.
Proof.
  apply (proj1 (unreadable_field_raises sample_repr sample_config
                  (issue_with_fields (JDict null_status_fields))
                  (JStr (tpl "OPS-1")) null_status_fields
                  eq_refl eq_refl) JNull); [reflexivity|discriminate].
Defined.

Lemma present_values_are_shown_witness :
  issue_row sample_repr sample_config
    (issue_with_fields (JDict null_summary_fields)) = Ok null_summary_row
  /\ summary null_summary_row = JNull
  /\ fmt sample_repr (summary null_summary_row) = tpl "None".
Proof.
  assert (Hr : issue_row sample_repr sample_config
                 (issue_with_fields (JDict null_summary_fields))
               = Ok null_summary_row) by reflexivity.
  destruct (present_values_are_shown sample_repr sample_config
              (issue_with_fields (JDict null_summary_fields))
              null_summary_fields null_summary_row eq_refl Hr)
    as (Hsm & _ & _ & _ & Hnone).
  split; [exact Hr|]. split; [exact (Hsm JNull eq_refl)|].
  rewrite (Hsm JNull eq_refl). exact Hnone.
Defined.

Lemma empty_fields_render_defaults_witness :
  issue_row sample_repr sample_config (issue_with_fields (JDict []))
  = Ok {| key := JStr (tpl "OPS-1");
          summary := JStr (tpl "N/A");
          status := JStr (tpl "N/A");
          assignee := JStr (tpl "Unassigned");
          priority := JStr (tpl "N/A");
          updated := JStr [];
          issue_url := JIRA_SITE sample_config ++ tpl "/browse/"
                       ++ fmt sample_repr (JStr (tpl "OPS-1"));
          status_color := tpl "#6b7280" |}.
Proof.
  apply (empty_fields_render_defaults sample_repr sample_config
           (issue_with_fields (JDict [])) (JStr (tpl "OPS-1")) []);
    reflexivity.
Defined.

Lemma row_links_to_the_issue_witness :
  contains
    (tpl "<a href=`https://acme.atlassian.net/browse/OPS-7` style=`color:#2563eb; font-weight:600; text-decoration:none;`>OPS-7</a>")
    (row_text sample_repr sample_row) = true.
Proof.
  exact (proj2 (row_links_to_the_issue sample_repr sample_config sample_issue
                  sample_row sample_issue_row)).
Defined.

Lemma report_of_any_object_witness :
  build_html_report_of sample_repr sample_config sample_clock
    (JDict [ (tpl "errorMessages", JList []) ]) (JStr (tpl "Ops")) (JInt 0)
  = Raise TypeError.
Proof.
  apply (proj2 (proj2 (proj2 (report_of_any_object sample_repr sample_config
                                sample_clock _ (JStr (tpl "Ops")) (JInt 0))))
           [JStr (tpl "errorMessages")]); try reflexivity; discriminate.
Defined.

(* ================================================================= *)
(** ** Counting the rows in the text of the report *)

Lemma digits_are_digits (d : Decimal.uint) (c : N) :
  In c (map N_of_ascii (list_ascii_of_string (NilEmpty.string_of_uint d))) ->
  (48 <= c <= 57)%N.
Proof.
  induction d; simpl; intros H;
    repeat (destruct H as [H|H]; [subst c; lia|]); auto; contradiction.
Qed.

Lemma str_of_int_chars (z : Z) (c : N) :
  In c (str_of_int z) -> c = 45%N \/ (48 <= c <= 57)%N.
Proof.
  unfold str_of_int, NilZero.string_of_int, NilZero.string_of_uint.
  destruct (Z.to_int z) as [d|d].
  - destruct d; try (intros H; right; revert H; apply digits_are_digits).
    simpl. intros [H|[]]. subst c. right. lia.
  - cbn [list_ascii_of_string map]. intros [H|H]; [left; now subst c|].
    right. revert H.
    destruct d; try apply digits_are_digits.
    simpl. intros [H|[]]. subst c. lia.
Qed.

Lemma strftime_without_tr (t : datetime) :
  occurrences (tpl "<tr>") (strftime_B_d_Y t) = 0.
Proof.
  unfold strftime_B_d_Y.
  assert (Hint : forall z, ~ In 60%N (str_of_int z)).
  { intros z H. apply str_of_int_chars in H. destruct H as [H|H];
      [discriminate H|lia]. }
  assert (Htail : occurrences (tpl "<tr>")
                    (tpl " " ++ two_digits (day t) ++ tpl ", "
                     ++ str_of_int (year t)) = 0).
  { change (tpl "<tr>") with (60%N :: tpl "tr>").
    apply occurrences_no_head. intros Hin.
    apply in_app_or in Hin. destruct Hin as [H|H].
    { vm_compute in H. destruct H as [H|[]]. discriminate H. }
    apply in_app_or in H. destruct H as [H|H].
    { unfold two_digits in H. destruct (day t <? 10)%Z.
      - apply in_app_or in H. destruct H as [H|H].
        + vm_compute in H. destruct H as [H|[]]. discriminate H.
        + exact (Hint _ H).
      - exact (Hint _ H). }
    apply in_app_or in H. destruct H as [H|H].
    { vm_compute in H. destruct H as [H|[H|[]]]; discriminate H. }
    exact (Hint _ H). }
  unfold month_name. generalize (Z.to_nat (month t - 1)). intros k.
  do 12 (destruct k as [|k];
         [ cbn [nth month_names];
           rewrite occurrences_app_silent by (vm_compute; reflexivity);
           exact Htail | ]).
  replace (nth (S (S (S (S (S (S (S (S (S (S (S (S k))))))))))))
             month_names ""%string) with ""%string
    by (destruct k; reflexivity).
  exact Htail.
Qed.

Lemma status_color_without_tr (st : json) (c : pystr) :
  status_color_of st = Ok c -> occurrences (tpl "<tr>") c = 0.
Proof.
  unfold status_color_of. destruct (hashable st); [|discriminate].
  intros [= <-]. destruct st; try (vm_compute; reflexivity).
  unfold status_colors. cbn [lookup].
  repeat match goal with
         | |- context [pystr_eqb s ?k] => destruct (pystr_eqb s k)
         end; vm_compute; reflexivity.
Qed.

Section RowTags.

Variable py_repr : json -> pystr.

Local Abbreviation fmt := (fmt py_repr).
Local Abbreviation issue_row := (issue_row py_repr).
Local Abbreviation row_text := (row_text py_repr).
Local Abbreviation row_values := (row_values py_repr).
Local Abbreviation row_count := (row_count py_repr).
Local Abbreviation page := (page py_repr).
Local Abbreviation build_html_report := (build_html_report py_repr).

Lemma row_text_tr (cfg : config) (issue : json) (r : row) (b : pystr) :
  issue_row cfg issue = Ok r ->
  occurrences (tpl "<tr>") (row_text r ++ b)
  = 1 + row_count (tpl "<tr>") (JIRA_SITE cfg) r
    + occurrences (tpl "<tr>") b.
Proof.
  intros Hr. apply issue_row_inv in Hr.
  destruct Hr as (f & _ & _ & _ & _ & _ & _ & _ & Hc & Hurl).
  apply status_color_without_tr in Hc.
  unfold row_text. rewrite <- !app_assoc. count_pieces.
  rewrite Hc, Hurl. count_pieces.
  replace (occurrences (tpl "<tr>") (ln "        <tr>")) with 1
    by (vm_compute; reflexivity).
  unfold row_count, row_values. cbn [map list_sum fold_right]. lia.
Qed.

Lemma rows_tr (cfg : config) (issues : list json) (rs : list row) :
  Forall2 (fun i r => issue_row cfg i = Ok r) issues rs ->
  forall b,
    occurrences (tpl "<tr>") (concat (map row_text rs) ++ b)
    = length issues
      + list_sum (map (row_count (tpl "<tr>") (JIRA_SITE cfg)) rs)
      + occurrences (tpl "<tr>") b.
Proof.
  unfold list_sum.
  induction 1 as [|i r issues rs Hi _ IH]; intros b;
    cbn [map concat fold_right length].
  - reflexivity.
  - rewrite <- app_assoc, (row_text_tr cfg i r _ Hi), IH. lia.
Qed.

Lemma page_tr (cfg : config) (today : pystr) (filter_name total : json)
    (rows notice : pystr) :
  occurrences (tpl "<tr>") (page cfg today filter_name total rows notice)
  = occurrences (tpl "<tr>") (fmt filter_name)
    + occurrences (tpl "<tr>") today
    + occurrences (tpl "<tr>") (fmt total)
    + occurrences (tpl "<tr>") rows
    + occurrences (tpl "<tr>") notice
    + occurrences (tpl "<tr>") (JIRA_SITE cfg).
Proof.
  rewrite <- (app_nil_r (page cfg today filter_name total rows notice)).
  unfold page. rewrite <- !app_assoc. count_pieces.
  replace (occurrences (tpl "<tr>") []) with 0 by reflexivity. lia.
Qed.

(** X17: in the text of a report the opening tag of a body row, the four
    characters of tr between angle brackets, occurs once for each issue, plus
    as often as the interpolated values hold it themselves: the filter name,
    the total, the site address (in the footer and in each link) and the
    values of the rows.  When no value holds it, the tag occurs exactly as
    many times as there are issues. *)
Theorem row_tags_count_the_issues (cfg : config) (now : datetime)
    (issues : list json) (filter_name total : json) (html : pystr) :
  build_html_report cfg now issues filter_name total = Ok html ->
  exists rs,
    Forall2 (fun i r => issue_row cfg i = Ok r) issues rs
    /\ occurrences (tpl "<tr>") html
       = length issues
         + occurrences (tpl "<tr>") (fmt filter_name)
         + occurrences (tpl "<tr>") (fmt total)
         + occurrences (tpl "<tr>") (JIRA_SITE cfg)
         + list_sum (map (row_count (tpl "<tr>") (JIRA_SITE cfg)) rs)
    /\ (contains (tpl "<tr>") (fmt filter_name) = false ->
        contains (tpl "<tr>") (fmt total) = false ->
        contains (tpl "<tr>") (JIRA_SITE cfg) = false ->
        Forall (fun r => Forall (fun v => contains (tpl "<tr>") v = false)
                                (row_values r)) rs ->
        occurrences (tpl "<tr>") html = length issues).
Proof.
  intros Hb. unfold build_html_report in Hb.
  apply bind_ok in Hb. destruct Hb as [rows [Hrows [= <-]]].
  apply render_rows_inv in Hrows. destruct Hrows as [rs [Hrs ->]].
  exists rs. cbn [app]. split; [exact Hrs|].
  assert (Hcount :
            occurrences (tpl "<tr>")
              (page cfg (strftime_B_d_Y now) filter_name total
                 (concat (map row_text rs)) (notice_for issues))
            = length issues
              + occurrences (tpl "<tr>") (fmt filter_name)
              + occurrences (tpl "<tr>") (fmt total)
              + occurrences (tpl "<tr>") (JIRA_SITE cfg)
              + list_sum (map (row_count (tpl "<tr>") (JIRA_SITE cfg)) rs)).
  { rewrite page_tr, strftime_without_tr.
    rewrite <- (app_nil_r (concat (map row_text rs))).
    rewrite (rows_tr cfg issues rs Hrs []).
    replace (occurrences (tpl "<tr>") []) with 0 by reflexivity.
    replace (occurrences (tpl "<tr>") (notice_for issues)) with 0
      by (destruct issues; vm_compute; reflexivity).
    lia. }
  split; [exact Hcount|].
  intros Hf Ht Hs Hall. rewrite Hcount.
  apply contains_false_iff in Hf, Ht, Hs. rewrite Hf, Ht, Hs.
  assert (Hzero : list_sum (map (row_count (tpl "<tr>") (JIRA_SITE cfg)) rs)
                  = 0).
  { clear -Hall Hs. unfold list_sum.
    induction Hall as [|r rs Hr _ IH]; [reflexivity|].
    cbn [map fold_right]. rewrite IH. unfold row_count. rewrite Hs.
    assert (Hv : list_sum (map (occurrences (tpl "<tr>")) (row_values r))
                 = 0).
    { clear -Hr. unfold list_sum.
      induction Hr as [|v vs Hv _ IHv]; [reflexivity|].
      cbn [map fold_right]. apply contains_false_iff in Hv. now rewrite Hv, IHv. }
    rewrite Hv.
    unfold row_values in Hr. inversion Hr as [|v vs Hk _]; subst.
    apply contains_false_iff in Hk. rewrite Hk. reflexivity. }
  rewrite Hzero. lia.
Qed.

End RowTags.

Lemma row_tags_count_the_issues_witness :
  exists rs,
    Forall2 (fun i r => issue_row sample_repr sample_config i = Ok r)
            [sample_issue; bare_issue] rs
    /\ occurrences (tpl "<tr>")
         (page sample_repr sample_config (tpl "March 15, 2024")
            (JStr (tpl "Ops")) (JInt 2)
            (row_text sample_repr sample_row ++ row_text sample_repr bare_row)
            [])
       = 2 + 0 + 0 + 0
         + list_sum (map (row_count sample_repr (tpl "<tr>")
                            (JIRA_SITE sample_config)) rs).
Proof.
  destruct (row_tags_count_the_issues sample_repr sample_config sample_clock
              [sample_issue; bare_issue] (JStr (tpl "Ops")) (JInt 2)
              (page sample_repr sample_config (tpl "March 15, 2024")
                 (JStr (tpl "Ops")) (JInt 2)
                 (row_text sample_repr sample_row
                  ++ row_text sample_repr bare_row) [])
              eq_refl) as (rs & Hrs & Hcount & _).
  exists rs. split; [exact Hrs|exact Hcount].
Defined.

Lemma false_or_nameless_assignee_witness :
  assignee_of (JDict [ (tpl "assignee", JStr []) ])
  = Ok (JStr (tpl "Unassigned")).
Proof.
  exact (proj1 (proj1 (false_or_nameless_assignee
                         [ (tpl "assignee", JStr []) ] (JStr []))
                  eq_refl) eq_refl).
Defined.

(* ================================================================= *)
(** ** The renderer: the rows of the document *)

Lemma list_sum_zero {A} (f : A -> nat) (l : list A) :
  list_sum (map f l) = 0 <-> Forall (fun x => f x = 0) l.
Proof.
  unfold list_sum. induction l as [|x l IH]; cbn [map fold_right].
  - split; [constructor|reflexivity].
  - rewrite Forall_cons_iff, <- IH. lia.
Qed.

Lemma Forall_equiv {A} (P Q : A -> Prop) (l : list A) :
  (forall x, P x <-> Q x) -> Forall P l <-> Forall Q l.
Proof.
  intros H. split; apply Forall_impl; intros x; apply H.
Qed.

Section RowsOfTheDocument.

Variable py_repr : json -> pystr.

Local Abbreviation fmt := (fmt py_repr).
Local Abbreviation issue_row := (issue_row py_repr).
Local Abbreviation row_text := (row_text py_repr).
Local Abbreviation row_values := (row_values py_repr).
Local Abbreviation row_count := (row_count py_repr).
Local Abbreviation page := (page py_repr).
Local Abbreviation build_html_report := (build_html_report py_repr).

(** The tr tags of a report: those of the row blocks and those of the
    values. *)
Lemma report_tr_count (cfg : config) (now : datetime) (issues : list json)
    (filter_name total : json) (rs : list row) :
  Forall2 (fun i r => issue_row cfg i = Ok r) issues rs ->
  occurrences (tpl "<tr>")
    (page cfg (strftime_B_d_Y now) filter_name total
       (concat (map row_text rs)) (notice_for issues))
  = length issues
    + occurrences (tpl "<tr>") (fmt filter_name)
    + occurrences (tpl "<tr>") (fmt total)
    + occurrences (tpl "<tr>") (JIRA_SITE cfg)
    + list_sum (map (row_count (tpl "<tr>") (JIRA_SITE cfg)) rs).
Proof.
  intros Hrs. rewrite page_tr, strftime_without_tr.
  rewrite <- (app_nil_r (concat (map row_text rs))).
  rewrite (rows_tr py_repr cfg issues rs Hrs []).
  replace (occurrences (tpl "<tr>") []) with 0 by reflexivity.
  replace (occurrences (tpl "<tr>") (notice_for issues)) with 0
    by (destruct issues; vm_compute; reflexivity).
  lia.
Qed.

Lemma rows_without (p site : pystr) (rs : list row) :
  occurrences p site = 0 ->
  list_sum (map (row_count p site) rs) = 0
  <-> Forall (fun r => Forall (fun v => contains p v = false) (row_values r))
             rs.
Proof.
  intros Hs. rewrite list_sum_zero. apply Forall_equiv. intros r.
  unfold row_count, row_values. rewrite Hs.
  unfold list_sum. cbn [map fold_right].
  rewrite !Forall_cons_iff, Forall_nil_iff, !contains_false_iff. lia.
Qed.

(** C1 (amended): when every issue of the list can be rendered, the report
    is built and its table body is the concatenation, in the order of the
    list, of one row block per issue: the i-th block is the row of the i-th
    issue, and each block opens with a tr tag and ends with its closing tag.
    Conversely a report that is built has this form.  The values are
    interpolated as they are, so the document holds the tr tags of the blocks
    and those the values bring along: it holds exactly one per issue exactly
    when no interpolated value (the filter name, the total, the site address,
    or the key, summary, status, assignee, priority or date of an issue)
    holds one. *)
Theorem one_row_per_issue_in_order (cfg : config) (now : datetime)
    (issues : list json) (filter_name total : json) :
  (forall rs,
      Forall2 (fun i r => issue_row cfg i = Ok r) issues rs ->
      build_html_report cfg now issues filter_name total
      = Ok (page cfg (strftime_B_d_Y now) filter_name total
              (concat (map row_text rs)) (notice_for issues)))
  /\
  (forall html,
      build_html_report cfg now issues filter_name total = Ok html ->
      exists rs,
        Forall2 (fun i r => issue_row cfg i = Ok r) issues rs
        /\ length rs = length issues
        /\ (forall n i, nth_error issues n = Some i ->
              exists r, nth_error rs n = Some r /\ issue_row cfg i = Ok r)
        /\ html = page cfg (strftime_B_d_Y now) filter_name total
                    (concat (map row_text rs)) (notice_for issues)
        /\ occurrences (tpl "<tr>") html
           = length issues
             + occurrences (tpl "<tr>") (fmt filter_name)
             + occurrences (tpl "<tr>") (fmt total)
             + occurrences (tpl "<tr>") (JIRA_SITE cfg)
             + list_sum (map (row_count (tpl "<tr>") (JIRA_SITE cfg)) rs)
        /\ (occurrences (tpl "<tr>") html = length issues <->
              contains (tpl "<tr>") (fmt filter_name) = false
              /\ contains (tpl "<tr>") (fmt total) = false
              /\ contains (tpl "<tr>") (JIRA_SITE cfg) = false
              /\ Forall (fun r =>
                           Forall (fun v => contains (tpl "<tr>") v = false)
                                  (row_values r)) rs))
  /\
  (forall r,
      starts_with ([newline] ++ ln "        <tr>") (row_text r) = true
      /\ ends_with (ln "        </tr>" ++ tpl "        ") (row_text r) = true).
Proof.
  split; [|split].
  - intros rs Hrs. unfold build_html_report.
    now rewrite (render_rows_ok py_repr cfg issues rs Hrs []).
  - intros html H. unfold build_html_report in H.
    apply bind_ok in H. destruct H as [rows [Hrows [= <-]]].
    apply render_rows_inv in Hrows. destruct Hrows as [rs [Hrs ->]].
    exists rs. cbn [app].
    pose proof (report_tr_count cfg now issues filter_name total rs Hrs)
      as Hcount.
    split; [exact Hrs|]. split; [symmetry; exact (Forall2_length Hrs)|].
    split; [|split; [reflexivity|split; [exact Hcount|]]].
    + clear -Hrs. induction Hrs as [|i r issues rs Hi _ IH]; intros n j Hn.
      * destruct n; discriminate.
      * destruct n as [|n]; simpl in *.
        -- injection Hn as <-. eauto.
        -- now apply IH.
    + rewrite Hcount, !contains_false_iff. split.
      * intros Hsum.
        assert (Hs : occurrences (tpl "<tr>") (JIRA_SITE cfg) = 0) by lia.
        repeat split; try lia.
        apply (rows_without _ _ rs Hs). lia.
      * intros (Hf & Ht & Hs & Hall).
        apply (rows_without _ _ rs Hs) in Hall. lia.
  - exact (row_text_frame py_repr).
Qed.

End RowsOfTheDocument.

Lemma one_row_per_issue_in_order_witness :
  build_html_report sample_repr sample_config sample_clock
    [sample_issue; bare_issue] (JStr (tpl "Ops")) (JInt 2)
  = Ok (page sample_repr sample_config (tpl "March 15, 2024")
          (JStr (tpl "Ops")) (JInt 2)
          (row_text sample_repr sample_row ++ row_text sample_repr bare_row)
          [])
  /\ occurrences (tpl "<tr>")
       (page sample_repr sample_config (tpl "March 15, 2024")
          (JStr (tpl "Ops")) (JInt 2)
          (row_text sample_repr sample_row ++ row_text sample_repr bare_row)
          [])
     = 2.
Proof.
  assert (Hb : build_html_report sample_repr sample_config sample_clock
                 [sample_issue; bare_issue] (JStr (tpl "Ops")) (JInt 2)
               = Ok (page sample_repr sample_config (tpl "March 15, 2024")
                       (JStr (tpl "Ops")) (JInt 2)
                       (row_text sample_repr sample_row
                        ++ row_text sample_repr bare_row) [])).
  { rewrite (proj1 (one_row_per_issue_in_order sample_repr sample_config
                      sample_clock [sample_issue; bare_issue]
                      (JStr (tpl "Ops")) (JInt 2))
               [sample_row; bare_row]).
    - cbn [map concat]. rewrite app_nil_r. reflexivity.
    - repeat constructor. }
  split; [exact Hb|].
  destruct (proj1 (proj2 (one_row_per_issue_in_order sample_repr
                            sample_config sample_clock
                            [sample_issue; bare_issue]
                            (JStr (tpl "Ops")) (JInt 2))) _ Hb)
    as (rs & Hrs & _ & _ & _ & _ & Hiff).
  apply (proj2 Hiff).
  inversion Hrs as [|i1 r1 tl1 rs1 Hr1 Hrest]; subst.
  inversion Hrest as [|i2 r2 tl2 rs2 Hr2 Hnil]; subst.
  inversion Hnil; subst.
  rewrite sample_issue_row in Hr1. injection Hr1 as <-.
  rewrite bare_issue_row in Hr2. injection Hr2 as <-.
  repeat split; try (vm_compute; reflexivity).
  repeat constructor.
Defined.

(** C1, as stated, fails: the report of one issue whose summary is the
    opening tag of a row holds two such tags. *)
Lemma two_row_tags_for_one_issue :
  length [tag_issue] = 1
  /\ match build_html_report sample_repr sample_config sample_clock
            [tag_issue] (JStr (tpl "Ops")) (JInt 1) with
     | Ok html => occurrences (tpl "<tr>") html
     | Raise _ => 0
     end = 2.
Proof. split; [reflexivity|]. vm_compute. reflexivity. Qed.

(* ================================================================= *)
(** ** The mail step: the calls of a session *)

Section MailProperties.

Variable text_encodes : pystr -> bool.
Variable as_string : mime_multipart -> option pystr.

Local Abbreviation send_email := (send_email text_encodes as_string).
Local Abbreviation session_calls := (session_calls as_string).
Local Abbreviation session_trace := (session_trace text_encodes as_string).
Local Abbreviation session_accepted := (session_accepted as_string).
Local Abbreviation message_ready := (message_ready text_encodes as_string).

(** The outcome of the mail step, in one piece: a page that cannot be
    encoded stops it before any call; a refused call gives the error of the
    session; a message that cannot be serialised gives the error of the email
    package when the session is otherwise accepted; and the confirmation is
    printed last. *)
Lemma send_email_outcome (cfg : config) (out : console) (srv : mail_server)
    (now : datetime) (html_body : pystr) (w : world) :
  send_email cfg out srv now html_body w
  = if text_encodes html_body
    then
      let w1 := {| http_log := http_log w;
                   smtp_log := smtp_log w
                               ++ session_trace cfg srv now html_body;
                   stdout := stdout w |} in
      if session_accepted cfg srv now html_body
      then match as_string (email_message cfg now html_body) with
           | Some _ => print out (sent_line cfg) w1
           | None => (Failed MessageError, w1)
           end
      else (Failed SessionError, w1)
    else (Failed MessageError, w).
Proof.
  unfold send_email, MIMEText, msg_as_string, session_accepted,
    session_trace, session_calls, sent_line, email_message, with_smtp,
    prog_bind, smtp, print.
  destruct (text_encodes html_body); [|reflexivity].
  cbn [http_log smtp_log stdout].
  destruct (srv (SMTP_connect smtp_host smtp_port)); cbn [andb];
    [|reflexivity].
  destruct (as_string (message_of cfg now _)) as [text|];
    cbn [app forallb attempted];
    destruct (srv SMTP_ehlo); cbn [andb http_log smtp_log stdout];
    try (destruct (srv SMTP_exit); cbn [http_log smtp_log stdout app];
         rewrite <- ?app_assoc; reflexivity);
    destruct (srv SMTP_starttls); cbn [andb http_log smtp_log stdout];
    try (destruct (srv SMTP_exit); cbn [http_log smtp_log stdout app];
         rewrite <- ?app_assoc; reflexivity);
    destruct (srv (SMTP_login _ _)); cbn [andb http_log smtp_log stdout];
    try (destruct (srv SMTP_exit); cbn [http_log smtp_log stdout app];
         rewrite <- ?app_assoc; reflexivity).
  destruct (srv (SMTP_sendmail _ _ _)); cbn [andb http_log smtp_log stdout];
    destruct (srv SMTP_exit); cbn [http_log smtp_log stdout app];
    rewrite <- ?app_assoc; reflexivity.
Qed.

(** Runs the mail step on each way the page, the message and the server
    can turn out. *)
Ltac mail_cases out srv H :=
  rewrite send_email_outcome in H;
  unfold session_accepted, session_trace, session_calls, message_ready,
    print in *;
  destruct (text_encodes _) eqn:Henc;
  [ destruct (as_string _) as [text|] eqn:Hser;
    cbn [app forallb attempted] in *;
    (destruct (srv (SMTP_connect smtp_host smtp_port)) eqn:Hconnect;
     [ destruct (srv SMTP_ehlo) eqn:Hehlo;
       [ destruct (srv SMTP_starttls) eqn:Htls;
         [ destruct (srv (SMTP_login _ _)) eqn:Hlogin;
           [ try destruct (srv (SMTP_sendmail _ _ _)) eqn:Hsend | ] | ] | ];
       destruct (srv SMTP_exit) eqn:Hexit | ]);
    cbn [andb app http_log smtp_log stdout] in *;
    try destruct (out _) eqn:Hout
  | ];
  cbn [andb app http_log smtp_log stdout] in *;
  injection H as <- <-; cbn [http_log smtp_log stdout].

(** X18: the mail session is closed on every path and nothing is tried
    twice.  A page that [MIMEText] cannot encode stops the step before any
    call is made.  Otherwise the first call is the connection; when it is
    refused no other call is made; when it is accepted the last call is the
    exit of the with statement, whichever step in between raised; no call
    occurs twice, and the mail step issues no HTTP request. *)
Theorem mail_session_always_closed (cfg : config) (out : console)
    (srv : mail_server) (now : datetime) (html_body : pystr) (w w' : world)
    (r : outcome unit) :
  send_email cfg out srv now html_body w = (r, w') ->
  exists new,
    smtp_log w' = smtp_log w ++ new
    /\ (text_encodes html_body = false ->
        new = [] /\ r = Failed MessageError)
    /\ (text_encodes html_body = true ->
        hd_error new = Some (SMTP_connect smtp_host smtp_port)
        /\ (srv (SMTP_connect smtp_host smtp_port) = false ->
            new = [SMTP_connect smtp_host smtp_port])
        /\ (srv (SMTP_connect smtp_host smtp_port) = true ->
            last new SMTP_ehlo = SMTP_exit))
    /\ NoDup new
    /\ http_log w' = http_log w.
Proof.
  intros H. mail_cases out srv H.
  all: eexists; (split; [first [reflexivity | symmetry; apply app_nil_r]|]).
  all: split; [intros Hx; first [discriminate Hx | split; reflexivity]|].
  all: split;
    [intros Hx; first [discriminate Hx
                      | split; [reflexivity|];
                        split; intros Hy;
                        first [discriminate Hy | reflexivity]]|].
  all: split; [|reflexivity].
  all: repeat constructor; simpl; intuition discriminate.
Qed.

(** X19: the password is given only on an upgraded session and the message
    only on an authenticated one: login is called only when ehlo and starttls
    returned, sendmail only when login returned as well; the message then goes
    from SENDER_EMAIL to the configured recipients, with the serialised
    message of the report as its text. *)
Theorem no_login_before_tls_no_mail_before_login (cfg : config)
    (out : console) (srv : mail_server) (now : datetime) (html_body : pystr)
    (w w' : world) (r : outcome unit) :
  send_email cfg out srv now html_body w = (r, w') ->
  exists new,
    smtp_log w' = smtp_log w ++ new
    /\ (forall u p, In (SMTP_login u p) new ->
          srv SMTP_ehlo = true /\ srv SMTP_starttls = true
          /\ u = SENDER_EMAIL cfg /\ p = SENDER_PASSWORD cfg)
    /\ (forall f t d, In (SMTP_sendmail f t d) new ->
          srv SMTP_ehlo = true /\ srv SMTP_starttls = true
          /\ srv (SMTP_login (SENDER_EMAIL cfg) (SENDER_PASSWORD cfg)) = true
          /\ f = SENDER_EMAIL cfg /\ t = RECIPIENT_EMAILS cfg
          /\ text_encodes html_body = true
          /\ as_string (email_message cfg now html_body) = Some d).
Proof.
  intros H. mail_cases out srv H.
  all: eexists; (split; [first [reflexivity | symmetry; apply app_nil_r]|]).
  all: split; intros; simpl in *;
    repeat match goal with
           | Hin : _ \/ _ |- _ => destruct Hin as [Hin|Hin]
           | Hin : False |- _ => destruct Hin
           | Hin : _ = _ :> smtp_call |- _ =>
               first [discriminate Hin
                     | injection Hin as <- <- <-
                     | injection Hin as <- <-]
           end; repeat split; first [reflexivity | assumption].
Qed.

(** X20: when the page can be encoded, the message can be serialised, the
    server accepts every call and the confirmation can be printed, the mail
    step returns after exactly six calls, connection, ehlo, starttls, login,
    sendmail and exit, in this order, and prints the confirmation with the
    recipients. *)
Theorem mail_sent_when_all_accepted (cfg : config) (out : console)
    (srv : mail_server) (now : datetime) (html_body text : pystr)
    (w : world) :
  text_encodes html_body = true ->
  as_string (email_message cfg now html_body) = Some text ->
  srv (SMTP_connect smtp_host smtp_port) = true ->
  srv SMTP_ehlo = true ->
  srv SMTP_starttls = true ->
  srv (SMTP_login (SENDER_EMAIL cfg) (SENDER_PASSWORD cfg)) = true ->
  srv (SMTP_sendmail (SENDER_EMAIL cfg) (RECIPIENT_EMAILS cfg) text) = true ->
  srv SMTP_exit = true ->
  out ([check_mark] ++ tpl " Report sent successfully to: "
       ++ join (tpl ", ") (RECIPIENT_EMAILS cfg)) = true ->
  send_email cfg out srv now html_body w
  = (Done tt,
     {| http_log := http_log w;
        smtp_log := smtp_log w
                    ++ [ SMTP_connect (tpl "smtp.office365.com") 587;
                         SMTP_ehlo;
                         SMTP_starttls;
                         SMTP_login (SENDER_EMAIL cfg) (SENDER_PASSWORD cfg);
                         SMTP_sendmail (SENDER_EMAIL cfg)
                           (RECIPIENT_EMAILS cfg) text;
                         SMTP_exit ];
        stdout := stdout w
                  ++ [ [check_mark] ++ tpl " Report sent successfully to: "
                       ++ join (tpl ", ") (RECIPIENT_EMAILS cfg) ] |}).
Proof.
  intros Henc Hser Hc He Ht Hl Hs Hx Hout. rewrite send_email_outcome.
  change (out (sent_line cfg) = true) in Hout.
  unfold session_accepted, session_trace, session_calls, print.
  rewrite Henc, Hser. cbn [app forallb attempted].
  rewrite Hc, He, Ht, Hl, Hs, Hx, Hout. reflexivity.
Qed.

(** X21: a failure is never retried or hidden.  The mail step returns, and
    prints its confirmation, exactly when the page can be encoded, the
    message can be serialised, all six calls are accepted and the
    confirmation can be printed; otherwise it raises and prints nothing.  A
    page that cannot be encoded raises before any call.  A message that
    cannot be serialised raises after the login: the session is closed and
    no message is handed over.  Once the message is handed over, a refused
    exit or a confirmation that cannot be printed still raises, although the
    message has been sent. *)
Theorem refusal_fails_the_mail_step (cfg : config) (out : console)
    (srv : mail_server) (now : datetime) (html_body : pystr) (w w' : world)
    (r : outcome unit) :
  send_email cfg out srv now html_body w = (r, w') ->
  (r = Done tt <->
     message_ready cfg now html_body = true
     /\ session_accepted cfg srv now html_body = true
     /\ out (sent_line cfg) = true)
  /\ (r = Done tt -> stdout w' = stdout w ++ [sent_line cfg])
  /\ (r <> Done tt -> stdout w' = stdout w)
  /\ (text_encodes html_body = false ->
      r = Failed MessageError /\ smtp_log w' = smtp_log w)
  /\ (text_encodes html_body = true ->
      as_string (email_message cfg now html_body) = None ->
      srv (SMTP_connect smtp_host smtp_port) = true ->
      srv SMTP_ehlo = true ->
      srv SMTP_starttls = true ->
      srv (SMTP_login (SENDER_EMAIL cfg) (SENDER_PASSWORD cfg)) = true ->
      srv SMTP_exit = true ->
      r = Failed MessageError
      /\ smtp_log w'
         = smtp_log w
           ++ [ SMTP_connect smtp_host smtp_port; SMTP_ehlo; SMTP_starttls;
                SMTP_login (SENDER_EMAIL cfg) (SENDER_PASSWORD cfg);
                SMTP_exit ])
  /\ (forall text,
        text_encodes html_body = true ->
        as_string (email_message cfg now html_body) = Some text ->
        srv (SMTP_connect smtp_host smtp_port) = true ->
        srv SMTP_ehlo = true ->
        srv SMTP_starttls = true ->
        srv (SMTP_login (SENDER_EMAIL cfg) (SENDER_PASSWORD cfg)) = true ->
        srv (SMTP_sendmail (SENDER_EMAIL cfg) (RECIPIENT_EMAILS cfg) text)
        = true ->
        In (SMTP_sendmail (SENDER_EMAIL cfg) (RECIPIENT_EMAILS cfg) text)
           (skipn (length (smtp_log w)) (smtp_log w'))
        /\ (srv SMTP_exit = false -> r = Failed SessionError)
        /\ (srv SMTP_exit = true -> out (sent_line cfg) = false ->
            r = Failed PrintError)).
Proof.
  intros H.
  assert (Hskip : forall (l new : list smtp_call),
             skipn (length l) (l ++ new) = new).
  { intros l new. rewrite skipn_app, skipn_all, Nat.sub_diag. reflexivity. }
  mail_cases out srv H.
  all: rewrite ?Hskip.
  all: repeat match goal with
              | |- _ /\ _ => split
              | |- _ <-> _ => split
              | |- forall _, _ => intro
              | Hx : _ /\ _ |- _ => destruct Hx
              | Hs : Some _ = Some _ |- _ => injection Hs as <-
              end.
  all: try congruence; try reflexivity; try (symmetry; apply app_nil_r).
  all: simpl; auto 8.
Qed.

End MailProperties.

(* ================================================================= *)
(** ** The whole run: fetch, render, mail *)

Section RunProperties.

Variable py_repr : json -> pystr.
Variable text_encodes : pystr -> bool.
Variable as_string : mime_multipart -> option pystr.

Local Abbreviation send_email := (send_email text_encodes as_string).
Local Abbreviation session_trace := (session_trace text_encodes as_string).
Local Abbreviation session_accepted := (session_accepted as_string).
Local Abbreviation message_ready := (message_ready text_encodes as_string).
Local Abbreviation run_report := (run_report py_repr text_encodes as_string).
Local Abbreviation found_line := (found_line py_repr).
Local Abbreviation build_html_report := (build_html_report py_repr).
Local Abbreviation build_html_report_of := (build_html_report_of py_repr).

(** The run, stage by stage: each line is printed before the stage it
    announces, and a line that cannot be printed stops the run there. *)
Lemma run_report_outcome (cfg : config) (out : console) (svc : service)
    (srv : mail_server) (now_render now_send : datetime) (w : world) :
  run_report cfg out svc srv now_render now_send w
  = if out fetching_line
    then
      match fetch_jira_issues cfg svc (http_log w) with
      | (Raise e, log) =>
          (Failed (PythonError e),
           {| http_log := log; smtp_log := smtp_log w;
              stdout := stdout w ++ [fetching_line] |})
      | (Ok (issues, filter_name, total), log) =>
          if out (found_line filter_name total)
          then
            match build_html_report_of cfg now_render issues filter_name total
            with
            | Raise e =>
                (Failed (PythonError e),
                 {| http_log := log; smtp_log := smtp_log w;
                    stdout := stdout w
                              ++ [fetching_line;
                                  found_line filter_name total] |})
            | Ok html =>
                if out sending_line
                then send_email cfg out srv now_send html
                       {| http_log := log; smtp_log := smtp_log w;
                          stdout := stdout w
                                    ++ [fetching_line;
                                        found_line filter_name total;
                                        sending_line] |}
                else (Failed PrintError,
                      {| http_log := log; smtp_log := smtp_log w;
                         stdout := stdout w
                                   ++ [fetching_line;
                                       found_line filter_name total] |})
            end
          else (Failed PrintError,
                {| http_log := log; smtp_log := smtp_log w;
                   stdout := stdout w ++ [fetching_line] |})
      end
    else (Failed PrintError, w).
Proof.
  unfold run_report, fetching_line, found_line, sending_line.
  unfold prog_bind at 1, print at 1.
  destruct (out _); [|reflexivity].
  unfold prog_bind at 1, run_io. cbn [http_log smtp_log stdout].
  destruct (fetch_jira_issues cfg svc (http_log w)) as [[[[i n] t]|e] log];
    [|reflexivity].
  unfold prog_bind at 1, print at 1. cbn [http_log smtp_log stdout].
  destruct (out _); [|reflexivity].
  unfold prog_bind at 1, run_result.
  destruct (build_html_report_of cfg now_render i n t) as [html|e];
    rewrite <- !app_assoc; cbn [app]; [|reflexivity].
  unfold prog_bind at 1, print at 1. cbn [http_log smtp_log stdout].
  destruct (out _); [|reflexivity].
  rewrite <- !app_assoc. reflexivity.
Qed.

(** X22: a stage that fails stops the run, and so does a line that cannot
    be printed.  When the first line cannot be printed nothing is requested.
    When the fetch raises, the run raises the same error having printed only
    its first line.  When the line naming the filter and the total cannot be
    printed, the run stops after the fetch and before the rendering.  When
    the rendering raises, the run raises the same error having printed two
    lines.  In none of these cases is a call made on the mail server. *)
Theorem failed_stage_stops_the_run (cfg : config) (out : console)
    (svc : service) (srv : mail_server) (now_render now_send : datetime)
    (w : world) :
  (out fetching_line = false ->
   run_report cfg out svc srv now_render now_send w = (Failed PrintError, w))
  /\ (forall e log,
        out fetching_line = true ->
        fetch_jira_issues cfg svc (http_log w) = (Raise e, log) ->
        run_report cfg out svc srv now_render now_send w
        = (Failed (PythonError e),
           {| http_log := log; smtp_log := smtp_log w;
              stdout := stdout w ++ [fetching_line] |}))
  /\ (forall issues filter_name total log,
        out fetching_line = true ->
        fetch_jira_issues cfg svc (http_log w)
        = (Ok (issues, filter_name, total), log) ->
        out (found_line filter_name total) = false ->
        run_report cfg out svc srv now_render now_send w
        = (Failed PrintError,
           {| http_log := log; smtp_log := smtp_log w;
              stdout := stdout w ++ [fetching_line] |}))
  /\ (forall issues filter_name total log e,
        out fetching_line = true ->
        fetch_jira_issues cfg svc (http_log w)
        = (Ok (issues, filter_name, total), log) ->
        out (found_line filter_name total) = true ->
        build_html_report_of cfg now_render issues filter_name total
        = Raise e ->
        run_report cfg out svc srv now_render now_send w
        = (Failed (PythonError e),
           {| http_log := log; smtp_log := smtp_log w;
              stdout := stdout w
                        ++ [fetching_line; found_line filter_name total] |}))
  /\ (forall issues filter_name total log html,
        out fetching_line = true ->
        fetch_jira_issues cfg svc (http_log w)
        = (Ok (issues, filter_name, total), log) ->
        out (found_line filter_name total) = true ->
        build_html_report_of cfg now_render issues filter_name total
        = Ok html ->
        out sending_line = false ->
        run_report cfg out svc srv now_render now_send w
        = (Failed PrintError,
           {| http_log := log; smtp_log := smtp_log w;
              stdout := stdout w
                        ++ [fetching_line; found_line filter_name total] |})).
Proof.
  repeat split.
  - intros Ho. now rewrite run_report_outcome, Ho.
  - intros e log Ho Hf. now rewrite run_report_outcome, Ho, Hf.
  - intros i n t log Ho Hf Hp. now rewrite run_report_outcome, Ho, Hf, Hp.
  - intros i n t log e Ho Hf Hp Hb.
    now rewrite run_report_outcome, Ho, Hf, Hp, Hb.
  - intros i n t log html Ho Hf Hp Hb Hs.
    now rewrite run_report_outcome, Ho, Hf, Hp, Hb, Hs.
Qed.

(** X23: mail is attempted only for a report that was fetched, announced
    and rendered: a run that makes any call on the mail server has printed
    its first line, fetched issues, a filter name and a total, printed them,
    rendered them into a page that can be encoded, and printed its third
    line; the calls it makes are those of the mail step for that page; and it
    returns exactly when the message can be serialised, the session is
    accepted and the confirmation can be printed. *)
Theorem mail_only_after_fetch_and_render (cfg : config) (out : console)
    (svc : service) (srv : mail_server) (now_render now_send : datetime)
    (w w' : world) (r : outcome unit) :
  run_report cfg out svc srv now_render now_send w = (r, w') ->
  smtp_log w' <> smtp_log w ->
  exists issues filter_name total html,
    out fetching_line = true
    /\ fetch_jira_issues cfg svc (http_log w)
       = (Ok (issues, filter_name, total), http_log w')
    /\ out (found_line filter_name total) = true
    /\ build_html_report_of cfg now_render issues filter_name total = Ok html
    /\ out sending_line = true
    /\ text_encodes html = true
    /\ smtp_log w' = smtp_log w ++ session_trace cfg srv now_send html
    /\ (r = Done tt <->
          message_ready cfg now_send html = true
          /\ session_accepted cfg srv now_send html = true
          /\ out (sent_line cfg) = true).
Proof.
  rewrite run_report_outcome. intros H Hne.
  destruct (out fetching_line) eqn:Ho.
  2:{ injection H as <- <-. now destruct Hne. }
  destruct (fetch_jira_issues cfg svc (http_log w)) as [[[[i n] t]|e] log].
  2:{ injection H as <- <-. now destruct Hne. }
  destruct (out (found_line n t)) eqn:Hp.
  2:{ injection H as <- <-. now destruct Hne. }
  destruct (build_html_report_of cfg now_render i n t) as [html|e] eqn:Hb.
  2:{ injection H as <- <-. now destruct Hne. }
  destruct (out sending_line) eqn:Hs.
  2:{ injection H as <- <-. now destruct Hne. }
  rewrite (send_email_outcome text_encodes as_string) in H.
  unfold message_ready.
  destruct (text_encodes html) eqn:Henc.
  2:{ injection H as <- <-. now destruct Hne. }
  exists i, n, t, html. rewrite Henc. cbv zeta in H. unfold print in H.
  cbn [http_log smtp_log stdout] in H.
  destruct (session_accepted cfg srv now_send html);
    [destruct (as_string (email_message cfg now_send html));
     [destruct (out (sent_line cfg))|]|];
    injection H as <- <-; cbn [http_log smtp_log stdout andb];
    repeat match goal with
           | |- _ /\ _ => split
           | |- _ <-> _ => split
           | |- forall _, _ => intro
           | Hx : _ /\ _ |- _ => destruct Hx
           end;
    cbn [andb] in *; try reflexivity; try assumption; congruence.
Qed.

(** X24: a run in which every stage succeeds and every line can be printed
    returns after the two HTTP requests and the six calls of one mail
    session; the message it sends is the serialised message of the page
    rendered from what the fetch returned, and the run prints its four lines
    in order. *)
Theorem run_succeeds_when_every_stage_does (cfg : config) (out : console)
    (svc : service) (srv : mail_server) (now_render now_send : datetime)
    (w : world) (issues : list json) (filter_name total : json)
    (log : list request) (html text : pystr) :
  out fetching_line = true ->
  fetch_jira_issues cfg svc (http_log w)
  = (Ok (JList issues, filter_name, total), log) ->
  out (found_line filter_name total) = true ->
  build_html_report cfg now_render issues filter_name total = Ok html ->
  out sending_line = true ->
  text_encodes html = true ->
  as_string (email_message cfg now_send html) = Some text ->
  srv (SMTP_connect smtp_host smtp_port) = true ->
  srv SMTP_ehlo = true ->
  srv SMTP_starttls = true ->
  srv (SMTP_login (SENDER_EMAIL cfg) (SENDER_PASSWORD cfg)) = true ->
  srv (SMTP_sendmail (SENDER_EMAIL cfg) (RECIPIENT_EMAILS cfg) text) = true ->
  srv SMTP_exit = true ->
  out (sent_line cfg) = true ->
  run_report cfg out svc srv now_render now_send w
  = (Done tt,
     {| http_log := log;
        smtp_log := smtp_log w
                    ++ [ SMTP_connect smtp_host smtp_port;
                         SMTP_ehlo;
                         SMTP_starttls;
                         SMTP_login (SENDER_EMAIL cfg) (SENDER_PASSWORD cfg);
                         SMTP_sendmail (SENDER_EMAIL cfg)
                           (RECIPIENT_EMAILS cfg) text;
                         SMTP_exit ];
        stdout := stdout w
                  ++ [ fetching_line; found_line filter_name total;
                       sending_line; sent_line cfg ] |}).
Proof.
  intros Ho Hf Hp Hb Hsl Henc Hser Hc He Ht Hl Hs Hx Hout.
  rewrite run_report_outcome, Ho, Hf, Hp.
  unfold build_html_report_of. cbn [iter_items bind]. rewrite Hb, Hsl.
  rewrite (send_email_outcome text_encodes as_string).
  unfold session_accepted, session_trace, session_calls, print.
  rewrite Henc, Hser. cbn [app forallb attempted].
  rewrite Hc, He, Ht, Hl, Hs, Hx, Hout.
  cbn [andb http_log smtp_log stdout app]. rewrite <- !app_assoc.
  reflexivity.
Qed.

(** X25: a filter that selects nothing is reported all the same: when the
    fetch returns the empty list and the lines of the run can be printed,
    the page is always rendered, it carries the notice of the empty report,
    and the run goes on to the mail step with that page, whose first call,
    when the page can be encoded, is the connection. *)
Theorem empty_filter_is_still_mailed (cfg : config) (out : console)
    (svc : service) (srv : mail_server) (now_render now_send : datetime)
    (w : world) (filter_name total : json) (log : list request) :
  out fetching_line = true ->
  fetch_jira_issues cfg svc (http_log w)
  = (Ok (JList [], filter_name, total), log) ->
  out (found_line filter_name total) = true ->
  out sending_line = true ->
  exists html,
    build_html_report cfg now_render [] filter_name total = Ok html
    /\ contains no_issues_text html = true
    /\ run_report cfg out svc srv now_render now_send w
       = send_email cfg out srv now_send html
           {| http_log := log; smtp_log := smtp_log w;
              stdout := stdout w
                        ++ [fetching_line; found_line filter_name total;
                            sending_line] |}
    /\ (text_encodes html = true ->
        hd_error (session_trace cfg srv now_send html)
        = Some (SMTP_connect smtp_host smtp_port)).
Proof.
  intros Ho Hf Hp Hs. eexists. split; [reflexivity|]. split; [|split].
  - cbn [notice_for]. unfold page, no_issues_notice. find_text.
  - rewrite run_report_outcome, Ho, Hf, Hp.
    unfold build_html_report_of. cbn [iter_items bind].
    unfold build_html_report. cbn [render_rows bind]. now rewrite Hs.
  - intros Henc. unfold session_trace. rewrite Henc.
    destruct (srv (SMTP_connect smtp_host smtp_port)); reflexivity.
Qed.

End RunProperties.

Lemma mail_session_always_closed_witness :
  (exists new,
      smtp_log (snd (send_email utf8_encodes sample_as_string sample_config
                       utf8_console login_rejecting_server sample_clock
                       empty_report fresh_world))
      = [] ++ new
      /\ last new SMTP_ehlo = SMTP_exit)
  /\ (exists new,
        smtp_log (snd (send_email utf8_encodes sample_as_string sample_config
                         utf8_console accepting_server sample_clock
                         [55296%N] fresh_world))
        = [] ++ new
        /\ new = []).
Proof.
  split.
  - destruct (mail_session_always_closed utf8_encodes sample_as_string
                sample_config utf8_console login_rejecting_server
                sample_clock empty_report fresh_world
                _ _ (surjective_pairing _))
      as (new & Hlog & _ & Hyes & _).
    exists new. split; [exact Hlog|].
    exact (proj2 (proj2 (Hyes eq_refl)) eq_refl).
  - destruct (mail_session_always_closed utf8_encodes sample_as_string
                sample_config utf8_console accepting_server
                sample_clock [55296%N] fresh_world
                _ _ (surjective_pairing _))
      as (new & Hlog & Hno & _).
    exists new. split; [exact Hlog|]. exact (proj1 (Hno eq_refl)).
Defined.

Lemma no_login_before_tls_no_mail_before_login_witness :
  exists new,
    smtp_log (snd (send_email utf8_encodes sample_as_string sample_config
                     utf8_console accepting_server sample_clock empty_report
                     fresh_world))
    = [] ++ new
    /\ In (SMTP_sendmail (tpl "reports@acme.com")
             [tpl "a@x.com"; tpl "b@y.com"] empty_report) new.
Proof.
  destruct (no_login_before_tls_no_mail_before_login utf8_encodes
              sample_as_string sample_config utf8_console accepting_server
              sample_clock empty_report fresh_world
              _ _ (surjective_pairing _))
    as (new & Hlog & _ & _).
  exists new. split; [exact Hlog|].
  change (smtp_log fresh_world ++ new) with new in Hlog.
  rewrite <- Hlog. vm_compute. do 4 right. left. reflexivity.
Defined.

Lemma mail_sent_when_all_accepted_witness :
  fst (send_email utf8_encodes sample_as_string sample_config utf8_console
         accepting_server sample_clock empty_report fresh_world) = Done tt.
Proof.
  rewrite (mail_sent_when_all_accepted utf8_encodes sample_as_string
             sample_config utf8_console accepting_server sample_clock
             empty_report empty_report fresh_world);
    reflexivity.
Defined.

Lemma refusal_fails_the_mail_step_witness :
  fst (send_email utf8_encodes sample_as_string
         sample_config_broken_recipient utf8_console accepting_server
         sample_clock empty_report fresh_world) = Failed MessageError
  /\ smtp_log (snd (send_email utf8_encodes sample_as_string
                      sample_config_broken_recipient utf8_console
                      accepting_server sample_clock empty_report
                      fresh_world))
     = smtp_log fresh_world
       ++ [ SMTP_connect smtp_host smtp_port; SMTP_ehlo; SMTP_starttls;
            SMTP_login (tpl "reports@acme.com") (tpl "hunter2");
            SMTP_exit ].
Proof.
  exact (proj1 (proj2 (proj2 (proj2 (proj2
           (refusal_fails_the_mail_step utf8_encodes sample_as_string
              sample_config_broken_recipient utf8_console accepting_server
              sample_clock empty_report fresh_world
              _ _ (surjective_pairing _))))))
           eq_refl eq_refl eq_refl eq_refl eq_refl eq_refl eq_refl).
Defined.

Lemma failed_stage_stops_the_run_witness :
  run_report sample_repr utf8_encodes sample_as_string sample_config
    utf8_console (sample_service 200 surrogate_filter sample_search)
    accepting_server sample_clock sample_clock fresh_world
  = (Failed PrintError,
     {| http_log := [filter_request sample_config;
                     search_request sample_config
                       (JStr (tpl "project = OPS"))];
        smtp_log := [];
        stdout := [fetching_line] |}).
Proof.
  exact (proj1 (proj2 (proj2
           (failed_stage_stops_the_run sample_repr utf8_encodes
              sample_as_string sample_config utf8_console
              (sample_service 200 surrogate_filter sample_search)
              accepting_server sample_clock sample_clock fresh_world)))
           (JList []) (JStr (tpl "Ops " ++ [55296%N])) (JInt 0)
           [filter_request sample_config;
            search_request sample_config (JStr (tpl "project = OPS"))]
           eq_refl eq_refl eq_refl).
Defined.

Lemma mail_only_after_fetch_and_render_witness :
  exists issues filter_name total html,
    fetch_jira_issues sample_config
      (sample_service 200 sample_filter sample_search) []
    = (Ok (issues, filter_name, total),
       [filter_request sample_config;
        search_request sample_config (JStr (tpl "project = OPS"))])
    /\ build_html_report_of sample_repr sample_config sample_clock
         issues filter_name total = Ok html
    /\ utf8_encodes html = true.
Proof.
  destruct (mail_only_after_fetch_and_render sample_repr utf8_encodes
              sample_as_string sample_config utf8_console
              (sample_service 200 sample_filter sample_search)
              accepting_server sample_clock sample_clock fresh_world
              _ _ (surjective_pairing _))
    as (i & n & t & html & _ & Hf & _ & Hb & _ & Henc & _).
  - vm_compute. discriminate.
  - exists i, n, t, html. split; [exact Hf|]. split; [exact Hb|exact Henc].
Defined.

Lemma run_succeeds_when_every_stage_does_witness :
  fst (run_report sample_repr utf8_encodes sample_as_string sample_config
         utf8_console (sample_service 200 sample_filter sample_search)
         accepting_server sample_clock sample_clock fresh_world) = Done tt.
Proof.
  rewrite (run_succeeds_when_every_stage_does sample_repr utf8_encodes
             sample_as_string sample_config utf8_console
             (sample_service 200 sample_filter sample_search)
             accepting_server sample_clock sample_clock fresh_world
             [] (JStr (tpl "Ops")) (JInt 0)
             [filter_request sample_config;
              search_request sample_config (JStr (tpl "project = OPS"))]
             empty_report empty_report); reflexivity.
Defined.

Lemma empty_filter_is_still_mailed_witness :
  exists html,
    build_html_report sample_repr sample_config sample_clock []
      (JStr (tpl "Ops")) (JInt 0) = Ok html
    /\ contains no_issues_text html = true.
Proof.
  destruct (empty_filter_is_still_mailed sample_repr utf8_encodes
              sample_as_string sample_config utf8_console
              (sample_service 200 sample_filter sample_search)
              accepting_server sample_clock sample_clock fresh_world
              (JStr (tpl "Ops")) (JInt 0)
              [filter_request sample_config;
               search_request sample_config (JStr (tpl "project = OPS"))]
              eq_refl eq_refl eq_refl eq_refl) as (html & Hb & Hc & _).
  exists html. split; [exact Hb|exact Hc].
Defined.
